(** * Uniswap V3 test-pool CLI (src/uniswapCli.ts): a shallow embedding

    The development follows the single source file of the repository:

    - JavaScript strings are [string]s, one [ascii] per UTF-16 code unit
      (the Latin-1 range); [toLowerCase], [trim], [startsWith] and the
      relational operators are written out on them;
    - JavaScript numbers are IEEE-754 binary64 values, taken from the
      Standard Library's executable specification [spec_float]
      (precision 53, emax 1024), so [Math.sqrt], [*], [/], [>] and
      [Math.floor] compute;
    - [bigint] is [Z];
    - [main] is written in a small error monad that threads the log of the
      calls made on the blockchain client; an exception is the [Throw]
      result, and a run is the pair of the result and that log;
    - the replies to the prompts are a record, one field per
      [rl.question]; what the program prints on the console is left out,
      since no call and no result depends on it;
    - viem's [parseEther] and [privateKeyToAccount] and the built-ins
      [parseFloat] and [Number] are imported by the source, not defined in
      it: they are the fields of a [Library] over which every theorem is
      quantified. *)

From Stdlib Require Import ZArith String Ascii List Bool Lia.
From Stdlib Require Import Floats.SpecFloat.
Import ListNotations.

Local Open Scope string_scope.
Local Open Scope Z_scope.

(** ** JavaScript strings *)

Module JsString.

(** One code unit of [String.prototype.toLowerCase]: A-Z and the upper-case
    letters of Latin-1 (U+00C0-U+00DE, the multiplication sign U+00D7
    apart) move up by 32. *)
Definition lowerUnit (c : ascii) : ascii :=
  let n := N_of_ascii c in
  if ((65 <=? n) && (n <=? 90))%N
     || ((192 <=? n) && (n <=? 222) && negb (n =? 215))%N
  then ascii_of_N (n + 32) else c.

Fixpoint toLowerCase (s : string) : string :=
  match s with
  | EmptyString => EmptyString
  | String c r => String (lowerUnit c) (toLowerCase r)
  end.

(** White space and line terminators below U+0100: TAB, LF, VT, FF, CR,
    SP and NBSP. *)
Definition isSpace (c : ascii) : bool :=
  let n := N_of_ascii c in
  (((9 <=? n) && (n <=? 13)) || (n =? 32) || (n =? 160))%N.

Fixpoint trimStart (s : string) : string :=
  match s with
  | EmptyString => EmptyString
  | String c r => if isSpace c then trimStart r else s
  end.

Fixpoint trimEnd (s : string) : string :=
  match s with
  | EmptyString => EmptyString
  | String c r =>
      match trimEnd r with
      | EmptyString => if isSpace c then EmptyString else String c EmptyString
      | r' => String c r'
      end
  end.

Definition trim (s : string) : string := trimEnd (trimStart s).

(** [s.startsWith(p)] *)
Definition startsWith (s p : string) : bool := String.prefix p s.

(** [a === b] and [a < b] on strings: code units compared left to right,
    a proper prefix sorting first. *)
Definition eqs (a b : string) : bool := String.eqb a b.
Definition lts (a b : string) : bool := String.ltb a b.

(** [a || d] on strings: the empty string is falsy. *)
Definition orElse (a d : string) : string :=
  match a with EmptyString => d | _ => a end.

End JsString.

Import JsString.

(** ** JavaScript numbers *)

Module JsNumber.

Definition prec : Z := 53.
Definition emax : Z := 1024.

Definition number := spec_float.

(** The number nearest to an integer (exact below 2^53 and on powers of
    two): numeric literals and [Number(bigint)]. *)
Definition ofZ (z : Z) : number := binary_normalize prec emax z 0 false.

Definition NaN : number := S754_nan.
Definition div (x y : number) : number := SFdiv prec emax x y.
Definition mul (x y : number) : number := SFmul prec emax x y.
Definition Math_sqrt (x : number) : number := SFsqrt prec emax x.

(** [x > y] *)
Definition gt (x y : number) : bool := SFltb y x.

(** [x <= y], used to state claims. *)
Definition le (x y : number) : bool := SFleb x y.

(** A number is falsy when it is [+0], [-0] or [NaN]. *)
Definition truthy (x : number) : bool :=
  match x with
  | S754_zero _ | S754_nan => false
  | _ => true
  end.

(** [x || d] on numbers. *)
Definition orElseN (x d : number) : number := if truthy x then x else d.

(** [Math.floor]: a finite value [(-1)^s * m * 2^e] with [e < 0] is cut to
    the integer below it; everything else is its own floor. *)
Definition Math_floor (x : number) : number :=
  match x with
  | S754_finite s m e =>
      if 0 <=? e then x
      else binary_normalize prec emax
             (Z.shiftr (cond_Zopp s (Zpos m)) (- e)) 0 false
  | _ => x
  end.

End JsNumber.

Import JsNumber.

(** ** Results of fallible code *)

Inductive Error : Type :=
| InvalidTargetPrice           (* new Error("Invalid target price input.") *)
| RangeError                   (* BigInt of a number that is no integer *)
| Raised (msg : string).       (* an error raised inside viem *)

Inductive Result (A : Type) : Type :=
| Ok (a : A)
| Throw (e : Error).

Arguments Ok {A} a.
Arguments Throw {A} e.

(** [BigInt(x)] of a number: the integer itself, a [RangeError] when [x] is
    [NaN], infinite or has a fractional part. *)
Definition BigInt (x : number) : Result Z :=
  match x with
  | S754_zero _ => Ok 0
  | S754_finite s m e =>
      if 0 <=? e then Ok (cond_Zopp s (Zpos m * 2 ^ e))
      else if Zpos m mod 2 ^ (- e) =? 0
           then Ok (cond_Zopp s (Zpos m / 2 ^ (- e)))
           else Throw RangeError
  | _ => Throw RangeError
  end.

(** ** Constants (lines 15-20) *)

Definition WETH_ADDRESS : string := "0x7b79995e5f793A07Bc00c21412e50Ecae098E7f9".
Definition NPM_ADDRESS : string := "0x1238536071e1c677a632429e3655c799b22cda52".

Definition TICK_LOWER : Z := -887220.
Definition TICK_UPPER : Z := 887220.
Definition Q96 : Z := 2 ^ 96.

(** ** The price encoder (lines 93-96) *)

Definition encodePriceSqrt (price : number) : Result Z :=
  let sqrt := Math_sqrt price in
  BigInt (Math_floor (mul sqrt (ofZ Q96))).

(** ** Modes and prompts (lines 91-116, 119-218) *)

Inductive Mode : Type := init | add | wrap.

Definition askMode (reply : string) : Mode :=
  let answer := toLowerCase (trim reply) in
  if eqs answer "2" then add
  else if eqs answer "3" then wrap
  else init.

(** What the user types at each [rl.question] of the source, in source
    order; a prompt that a run does not reach leaves its reply unread. *)
Record Replies : Type := {
  modeReply : string;            (* line 100 *)
  rpcUrlInput : string;          (* line 124 *)
  pkInput : string;              (* line 127 *)
  wrapOnlyReply : string;        (* line 149, wrap mode *)
  feeInput : string;             (* line 174 *)
  tokenAddressInput : string;    (* line 180 *)
  targetPriceReply : string;     (* line 188, init mode *)
  wrapAnswerReply : string;      (* line 194 *)
  wrapAmountReply : string;      (* line 202, after "y" or "yes" *)
  amountTokenReply : string;     (* line 207 *)
  amountWethReply : string       (* line 214 *)
}.

(** ** The blockchain client *)

Definition Hash : Type := string.

Record Receipt : Type := { blockNumber : Z }.

Record MintParams : Type := {
  token0 : string;
  token1 : string;
  fee : number;
  tickLower : Z;
  tickUpper : Z;
  amount0Desired : Z;
  amount1Desired : Z;
  amount0Min : Z;
  amount1Min : Z;
  recipient : string;
  deadline : Z
}.

(** The four [writeContract] requests of the source: the contract address
    comes first, then the arguments ([value] for the payable [deposit]). *)
Inductive ContractCall : Type :=
| deposit (address : string) (value : Z)
| createAndInitializePoolIfNecessary
    (address tokenA tokenB : string) (feeTier : number) (sqrtPriceX96 : Z)
| approve (address spender : string) (value : Z)
| mint (address : string) (params : MintParams).

(** The log of a run: every call made on the client, with its outcome. *)
Inductive Event : Type :=
| Submitted (call : ContractCall) (outcome : Result Hash)
| Awaited (hash : Hash) (outcome : Result Receipt).

(** [walletClient.writeContract] and
    [publicClient.waitForTransactionReceipt]; the chain may answer
    according to everything that happened before, so both take the log. *)
Record Client : Type := {
  writeContract : list Event -> ContractCall -> Result Hash;
  waitForTransactionReceipt : list Event -> Hash -> Result Receipt
}.

(** Text-to-value functions that the source imports: the JavaScript
    built-ins [parseFloat] and [Number], and viem's [parseEther] and
    [privateKeyToAccount] (the address of the account; both may throw). *)
Record Library : Type := {
  parseFloat : string -> number;
  toNumber : string -> number;
  parseEther : string -> Result Z;
  privateKeyToAccount : string -> Result string
}.

(** Everything outside the program: the user's replies, the clients that
    [createWalletClient] and [createPublicClient] give for an RPC URL and an
    account, and the reading of [Date.now()] (milliseconds). *)
Record World : Type := {
  replies : Replies;
  connect : string -> string -> Client;
  dateNow : Z
}.

(** ** The monad of [main]: exceptions over a log *)

Definition Run (A : Type) : Type := list Event -> Result A * list Event.

Definition ret {A : Type} (a : A) : Run A := fun log => (Ok a, log).

Definition throw {A : Type} (e : Error) : Run A := fun log => (Throw e, log).

Definition bind {A B : Type} (m : Run A) (k : A -> Run B) : Run B :=
  fun log =>
    match m log with
    | (Ok a, log') => k a log'
    | (Throw e, log') => (Throw e, log')
    end.

Definition lift {A : Type} (r : Result A) : Run A := fun log => (r, log).

Declare Scope run_scope.
Delimit Scope run_scope with run.
Notation "x <- m ;; k" := (bind m (fun x => k))
  (at level 61, m at next level, right associativity) : run_scope.

Definition submit (c : Client) (call : ContractCall) : Run Hash :=
  fun log =>
    let outcome := writeContract c log call in
    (outcome, (log ++ [Submitted call outcome])%list).

Definition await (c : Client) (hash : Hash) : Run Receipt :=
  fun log =>
    let outcome := waitForTransactionReceipt c log hash in
    (outcome, (log ++ [Awaited hash outcome])%list).

(** ** Pieces of [main] that the claims name *)

(** Lines 231-237: the pair in canonical order. *)
Definition orderTokens (tokenAddress wethAddress : string) : string * string :=
  let tokenLower := toLowerCase tokenAddress in
  let wethLower := toLowerCase wethAddress in
  if lts tokenLower wethLower
  then (tokenAddress, wethAddress)
  else (wethAddress, tokenAddress).

(** Lines 260-263: the price handed to the encoder. *)
Definition poolPrice (tokenA tokenAddress : string)
    (targetTokensPerWeth : number) : number :=
  if eqs (toLowerCase tokenA) (toLowerCase tokenAddress)
  then div (ofZ 1) targetTokensPerWeth   (* WETH per TOKEN *)
  else targetTokensPerWeth.              (* TOKEN per WETH *)

(** Lines 313-322: which of the two entered amounts goes in a slot. *)
Definition slotAmount (slotToken tokenAddress amountTokenStr amountWethStr : string)
    : string :=
  if eqs (toLowerCase slotToken) (toLowerCase tokenAddress)
  then amountTokenStr
  else amountWethStr.

Definition maxUint256 : Z := 2 ^ 256 - 1.

Definition defaultRpc : string :=
  "https://sepolia.infura.io/v3/<YOUR_INFURA_PROJECT_ID>".

(** ** [main] (lines 118-362) *)

Section Main.

Variable lib : Library.
Variable w : World.

Local Open Scope run_scope.

(** Lines 121-132: the mode, the RPC URL and the private key. *)
Definition mode : Mode := askMode (modeReply (replies w)).

Definition rpcUrl : string := orElse (trim (rpcUrlInput (replies w))) defaultRpc.

Definition privateKey : string :=
  let pk := trim (pkInput (replies w)) in
  if startsWith pk "0x" then pk else "0x" ++ pk.

(** Lines 174-218: the values read from the prompts of the init and add
    modes. *)
Definition feeTier : number :=
  let feeInput := feeInput (replies w) in
  orElseN (if eqs (trim feeInput) EmptyString then ofZ 10000
           else toNumber lib (trim feeInput))
          (ofZ 10000).

Definition tokenAddress : string := trim (tokenAddressInput (replies w)).

Definition targetTokensPerWethStr (mode : Mode) : string :=
  match mode with
  | init => orElse (targetPriceReply (replies w)) "1"
  | _ => "1"
  end.

Definition wrapAmountEth : string :=
  let wrapAnswer := toLowerCase (trim (wrapAnswerReply (replies w))) in
  if eqs wrapAnswer "y" || eqs wrapAnswer "yes"
  then orElse (wrapAmountReply (replies w)) "0.2"
  else "0".

Definition amountTokenStr : string := orElse (amountTokenReply (replies w)) "400".
Definition amountWethStr : string := orElse (amountWethReply (replies w)) "0.2".

Definition main : Run unit :=
  let mode := mode in
  account <- lift (privateKeyToAccount lib privateKey) ;;
  let client := connect w rpcUrl account in
  match mode with
  | wrap =>
      let wrapAmountEth := orElse (wrapOnlyReply (replies w)) "0.1" in
      value <- lift (parseEther lib wrapAmountEth) ;;
      wrapHash <- submit client (deposit WETH_ADDRESS value) ;;
      _ <- await client wrapHash ;;
      ret tt
  | _ =>
      let '(token0, token1) := orderTokens tokenAddress WETH_ADDRESS in
      _ <- (if negb (eqs wrapAmountEth "0") then
              value <- lift (parseEther lib wrapAmountEth) ;;
              wrapHash <- submit client (deposit WETH_ADDRESS value) ;;
              _ <- await client wrapHash ;;
              ret tt
            else ret tt) ;;
      _ <- (match mode with
            | init =>
                let targetTokensPerWeth :=
                  parseFloat lib (targetTokensPerWethStr mode) in
                _ <- (if negb (gt targetTokensPerWeth (ofZ 0))
                      then throw InvalidTargetPrice else ret tt) ;;
                let price := poolPrice token0 tokenAddress targetTokensPerWeth in
                sqrtPriceX96 <- lift (encodePriceSqrt price) ;;
                initHash <- submit client
                  (createAndInitializePoolIfNecessary
                     NPM_ADDRESS token0 token1 feeTier sqrtPriceX96) ;;
                _ <- await client initHash ;;
                ret tt
            | _ => ret tt
            end) ;;
      approveToken0Hash <- submit client (approve token0 NPM_ADDRESS maxUint256) ;;
      _ <- await client approveToken0Hash ;;
      approveToken1Hash <- submit client (approve token1 NPM_ADDRESS maxUint256) ;;
      _ <- await client approveToken1Hash ;;
      amount0Desired <- lift (parseEther lib
        (slotAmount token0 tokenAddress amountTokenStr amountWethStr)) ;;
      amount1Desired <- lift (parseEther lib
        (slotAmount token1 tokenAddress amountTokenStr amountWethStr)) ;;
      let deadline := dateNow w / 1000 + 600 in
      mintHash <- submit client
        (mint NPM_ADDRESS
           {| token0 := token0;
              token1 := token1;
              fee := feeTier;
              tickLower := TICK_LOWER;
              tickUpper := TICK_UPPER;
              amount0Desired := amount0Desired;
              amount1Desired := amount1Desired;
              amount0Min := 0;
              amount1Min := 0;
              recipient := account;
              deadline := deadline |}) ;;
      _ <- await client mintHash ;;
      ret tt
  end.

(** A run of the program: the result of [main] and the log it leaves. *)
Definition run : Result unit * list Event := main [].

End Main.

(** ** Reading a log *)

(** The calls submitted during a run, in order. *)
Fixpoint callsOf (log : list Event) : list ContractCall :=
  match log with
  | [] => []
  | Submitted call _ :: rest => call :: callsOf rest
  | Awaited _ _ :: rest => callsOf rest
  end.

(** The error an event ended with, if it did. *)
Definition failure (ev : Event) : option Error :=
  match ev with
  | Submitted _ (Throw e) | Awaited _ (Throw e) => Some e
  | _ => None
  end.

(** A log in which no call is submitted before the one before it is
    confirmed: confirmed submissions follow one another, and a rejected
    submission or a failed confirmation can only come last. *)
Inductive Gated : list Event -> Prop :=
| gated_nil : Gated []
| gated_rejected call e : Gated [Submitted call (Throw e)]
| gated_unconfirmed call h e :
    Gated [Submitted call (Ok h); Awaited h (Throw e)]
| gated_confirmed call h r rest :
    Gated rest -> Gated (Submitted call (Ok h) :: Awaited h (Ok r) :: rest).

(** [Confirmed log calls]: the log is exactly the calls [calls], each one
    submitted, accepted and confirmed before the next. *)
Inductive Confirmed : list Event -> list ContractCall -> Prop :=
| confirmed_nil : Confirmed [] []
| confirmed_cons call h r rest calls :
    Confirmed rest calls ->
    Confirmed (Submitted call (Ok h) :: Awaited h (Ok r) :: rest) (call :: calls).

(** [Answered c before log]: every outcome in [log] is what the client [c]
    answered when it was asked, on the history up to that event ([before]
    and the events of [log] in front of it): a logged hash is the one
    [writeContract] returned for that call, a logged receipt or error is the
    one [waitForTransactionReceipt] returned for that hash. *)
Fixpoint Answered (c : Client) (before log : list Event) : Prop :=
  match log with
  | [] => True
  | Submitted call outcome :: rest =>
      outcome = writeContract c before call /\
      Answered c (before ++ [Submitted call outcome])%list rest
  | Awaited hash outcome :: rest =>
      outcome = waitForTransactionReceipt c before hash /\
      Answered c (before ++ [Awaited hash outcome])%list rest
  end.

(** The confirmation wait of a pool initialization failed with [e]. *)
Fixpoint InitConfirmationFails (e : Error) (log : list Event) : Prop :=
  match log with
  | [] => False
  | ev :: rest =>
      match ev, rest with
      | Submitted (createAndInitializePoolIfNecessary _ _ _ _ _) (Ok h),
        Awaited h' (Throw e') :: _ => h' = h /\ e' = e
      | _, _ => False
      end
      \/ InitConfirmationFails e rest
  end.

(** A client that accepts and confirms whatever it is given. *)
Definition Cooperative (c : Client) : Prop :=
  (forall log call, exists h, writeContract c log call = Ok h) /\
  (forall log h, exists r, waitForTransactionReceipt c log h = Ok r).

(** ** A concrete library and concrete worlds, to run the program *)

Module Demo.

Definition digit (c : ascii) : option Z :=
  let n := Z.of_N (N_of_ascii c) in
  if (48 <=? n) && (n <=? 57) then Some (n - 48) else None.

(** The value of a string of decimal digits, most significant first. *)
Fixpoint digitsFrom (acc : Z) (s : string) : option Z :=
  match s with
  | EmptyString => Some acc
  | String c r =>
      match digit c with
      | Some d => digitsFrom (10 * acc + d) r
      | None => None
      end
  end.

Definition digits (s : string) : option Z := digitsFrom 0 s.

(** The text before and after the first ['.'] of a string. *)
Fixpoint splitDot (s : string) : string * option string :=
  match s with
  | EmptyString => (EmptyString, None)
  | String c r =>
      if Ascii.eqb c "."%char then (EmptyString, Some r)
      else let '(i, f) := splitDot r in (String c i, f)
  end.

(** [parseEther] on the inputs used below: an unsigned decimal with at
    most 18 fractional digits is scaled by 10^18. Other texts are
    answered with an error and are not used. *)
Definition decimalEther (s : string) : Result Z :=
  let '(i, f) := splitDot s in
  let f := match f with Some f => f | None => EmptyString end in
  match digits i, digits f with
  | Some iv, Some fv =>
      if (String.length f <=? 18)%nat
      then Ok (iv * 10 ^ 18 + fv * 10 ^ (18 - Z.of_nat (String.length f)))
      else Throw (Raised "InvalidDecimalNumberError")
  | _, _ => Throw (Raised "InvalidDecimalNumberError")
  end.

(** [parseFloat] and [Number] on the inputs used below: a non-empty
    string of decimal digits is that integer; other texts are answered
    with [NaN] and are not used. *)
Definition decimalNumber (s : string) : number :=
  match s, digits s with
  | String _ _, Some n => ofZ n
  | _, _ => NaN
  end.

Definition testKey : string :=
  "0xac0974bec39a17e36ba4a6b4d238ff944bacb478cbed5efcae784d7bf4f2ff80".
Definition testAccount : string :=
  "0xf39Fd6e51aad88F6F4ce6aB8827279cffFb92266".

Definition accountOfKey (pk : string) : Result string :=
  if eqs pk testKey then Ok testAccount
  else Throw (Raised "InvalidPrivateKeyError").

Definition library : Library :=
  {| parseFloat := decimalNumber;
     toNumber := decimalNumber;
     parseEther := decimalEther;
     privateKeyToAccount := accountOfKey |}.

(** The n-th transaction hash of a test chain: "0xa", "0xb", ... *)
Definition txHash (log : list Event) : Hash :=
  String "0" (String "x"
    (String (ascii_of_nat (97 + List.length (callsOf log))) EmptyString)).

(** A chain on which everything is accepted and confirmed. *)
Definition goodClient : Client :=
  {| writeContract := fun log _ => Ok (txHash log);
     waitForTransactionReceipt := fun log _ =>
       Ok {| blockNumber := 100 + Z.of_nat (List.length (callsOf log)) |} |}.

(** A chain on which the pool initialization is accepted and then
    reverts; everything else is confirmed. *)
Definition revertingClient : Client :=
  {| writeContract := fun log _ => Ok (txHash log);
     waitForTransactionReceipt := fun log _ =>
       match List.last log (Awaited EmptyString (Throw RangeError)) with
       | Submitted (createAndInitializePoolIfNecessary _ _ _ _ _) _ =>
           Throw (Raised "execution reverted")
       | _ => Ok {| blockNumber := 100 + Z.of_nat (List.length (callsOf log)) |}
       end |}.

Definition tokenLow : string := "0x1111111111111111111111111111111111111111".
Definition tokenHigh : string := "0xFfFfFfFFfFFfFFfFFfFFFFFffFFFffffFfFFFfFf".

Definition ask (mode token price wrapAnswer wrapAmount amountToken amountWeth
                : string) : Replies :=
  {| modeReply := mode;
     rpcUrlInput := EmptyString;
     pkInput := testKey;
     wrapOnlyReply := "0.2";
     feeInput := "3000";
     tokenAddressInput := token;
     targetPriceReply := price;
     wrapAnswerReply := wrapAnswer;
     wrapAmountReply := wrapAmount;
     amountTokenReply := amountToken;
     amountWethReply := amountWeth |}.

Definition world (c : Client) (r : Replies) : World :=
  {| replies := r; connect := fun _ _ => c; dateNow := 1700000000123 |}.

(** Scenario A of the specification, with a token above WETH and a wrap. *)
Definition initHigh : World :=
  world goodClient (ask "1" tokenHigh "4000" "y" "0.2" "800" "0.2").

(** Scenario A with a token below WETH and no wrap. *)
Definition initLow : World :=
  world goodClient (ask "1" tokenLow "4000" "n" EmptyString "800" "0.2").

(** The init mode with a wrap and the target price 0. *)
Definition badPrice : World :=
  world goodClient (ask "1" tokenLow "0" "y" "0.2" "800" "0.2").

(** The add mode with WETH itself as the user's token. *)
Definition sameToken : World :=
  world goodClient (ask "2" WETH_ADDRESS EmptyString "n" EmptyString "800" "0.2").

(** The add mode with WETH itself as the token and both amounts zero. *)
Definition nothingToAdd : World :=
  world goodClient (ask "2" WETH_ADDRESS EmptyString "n" EmptyString "0" "0").

(** The init mode on the chain where the initialization reverts. *)
Definition reverting : World :=
  world revertingClient (ask "1" tokenLow "4000" "y" "0.2" "800" "0.2").

(** The add mode with a wrap of "0.0". *)
Definition zeroSpelled : World :=
  world goodClient (ask "2" tokenLow EmptyString "y" "0.0" "800" "0.2").

(** The mint parameters of the runs [initLow] and [sameToken]. *)
Definition paramsLow : MintParams :=
  {| token0 := tokenLow;
     token1 := WETH_ADDRESS;
     fee := ofZ 3000;
     tickLower := -887220;
     tickUpper := 887220;
     amount0Desired := 800 * 10 ^ 18;
     amount1Desired := 2 * 10 ^ 17;
     amount0Min := 0;
     amount1Min := 0;
     recipient := testAccount;
     deadline := 1700000600 |}.

Definition paramsSame : MintParams :=
  {| token0 := WETH_ADDRESS;
     token1 := WETH_ADDRESS;
     fee := ofZ 3000;
     tickLower := -887220;
     tickUpper := 887220;
     amount0Desired := 800 * 10 ^ 18;
     amount1Desired := 800 * 10 ^ 18;
     amount0Min := 0;
     amount1Min := 0;
     recipient := testAccount;
     deadline := 1700000600 |}.

(** The add mode with a token amount that is no number. *)
Definition badAmount : World :=
  world goodClient (ask "2" tokenLow EmptyString "y" "0.2" "lots" "0.2").

(** The wrap mode, with 0.2 ETH to wrap. *)
Definition wrapOnly : World :=
  world goodClient (ask "3" EmptyString EmptyString EmptyString EmptyString
                      EmptyString EmptyString).

End Demo.


(** ** The sequence of the specification *)

(** The value of a result that is [Ok]. *)
Definition okOr {A : Type} (d : A) (r : Result A) : A :=
  match r with Ok a => a | Throw _ => d end.

Section Scenario.

Variable lib : Library.
Variable w : World.

(** The canonical pair and the parsed target price of a run. *)
Definition pair : string * string := orderTokens (tokenAddress w) WETH_ADDRESS.

Definition target : number := parseFloat lib (targetTokensPerWethStr w init).

(** Specification, section 8, scenarios A and B, written from its words:
    wrap (if requested), initialize(token0, token1, fee, encoded price)
    in the init mode only, approve(token0), approve(token1), mint. *)
Definition scenario : list ContractCall :=
  let tokenA := fst pair in
  let tokenB := snd pair in
  ((if eqs (wrapAmountEth w) "0" then []
    else [deposit WETH_ADDRESS (okOr 0 (parseEther lib (wrapAmountEth w)))]) ++
   (match mode w with
    | init =>
        [createAndInitializePoolIfNecessary NPM_ADDRESS tokenA tokenB
           (feeTier lib w)
           (okOr 0 (encodePriceSqrt (poolPrice tokenA (tokenAddress w) target)))]
    | _ => []
    end) ++
   [approve tokenA NPM_ADDRESS maxUint256;
    approve tokenB NPM_ADDRESS maxUint256;
    mint NPM_ADDRESS
      {| token0 := tokenA;
         token1 := tokenB;
         fee := feeTier lib w;
         tickLower := -887220;
         tickUpper := 887220;
         amount0Desired := okOr 0 (parseEther lib
           (slotAmount tokenA (tokenAddress w) (amountTokenStr w) (amountWethStr w)));
         amount1Desired := okOr 0 (parseEther lib
           (slotAmount tokenB (tokenAddress w) (amountTokenStr w) (amountWethStr w)));
         amount0Min := 0;
         amount1Min := 0;
         recipient := okOr EmptyString (privateKeyToAccount lib (privateKey w));
         deadline := dateNow w / 1000 + 600 |}])%list.

(** The inputs are well formed and the chain confirms everything. *)
Definition Ready : Prop :=
  (forall url account, Cooperative (connect w url account)) /\
  (exists account, privateKeyToAccount lib (privateKey w) = Ok account) /\
  (eqs (wrapAmountEth w) "0" = false ->
     exists v, parseEther lib (wrapAmountEth w) = Ok v) /\
  (mode w = init ->
     gt target (ofZ 0) = true /\
     exists sp,
       encodePriceSqrt (poolPrice (fst pair) (tokenAddress w) target) = Ok sp) /\
  (exists a, parseEther lib (amountTokenStr w) = Ok a) /\
  (exists a, parseEther lib (amountWethStr w) = Ok a).

End Scenario.

(** A number that is not a negative finite value. *)
Definition notNegative (x : number) : Prop :=
  match x with S754_finite true _ _ => False | _ => True end.

(** ** Proof tools *)

(** Symbolic execution of [main]: case analysis on the next thing the run
    depends on (a reply, a parse, an answer of the chain). *)
Ltac run_unfold :=
  cbv beta iota zeta delta [run main bind lift submit await ret throw];
  cbn [app fst snd].

Ltac run_step :=
  match goal with
  | |- context [negb ?b] => destruct b eqn:?; cbn [negb]
  | |- context [match ?x with _ => _ end] =>
      lazymatch x with
      | context [match _ with _ => _ end] => fail
      | _ => destruct x eqn:?
      end
  end;
  cbn [app fst snd].

(** Equations collected on the way are put back in the goal. *)
Ltac recall :=
  repeat match goal with
         | H : ?l = _ |- context [?l] => rewrite H; cbn [fst snd okOr app]
         end.

Ltac run_exec := run_unfold; repeat run_step.

(** An event of a concrete log is found by running the program. *)
Ltac find_in_log := vm_compute; repeat (first [left; reflexivity | right]).

(** Membership in a log that has been computed: one case per event. *)
Ltac in_log H :=
  cbn [In] in H;
  repeat match type of H with _ \/ _ => destruct H as [H | H] end;
  try contradiction; try discriminate.

(** ** The order on strings *)

Lemma lts_strict (a b : string) :
  lts a b = true -> eqs a b = false /\ eqs b a = false /\ lts b a = false.
Proof.
  unfold lts, eqs, String.ltb. intros H.
  assert (Hab : String.compare a b = Lt)
    by (destruct (String.compare a b); congruence).
  assert (Hne : a <> b).
  { intros ->. pose proof (String.compare_antisym b b) as E.
    rewrite Hab in E. discriminate. }
  repeat split.
  - apply String.eqb_neq. exact Hne.
  - apply String.eqb_neq. congruence.
  - rewrite String.compare_antisym, Hab. reflexivity.
Qed.

Lemma lts_connected (a b : string) :
  a <> b -> lts a b = false -> lts b a = true.
Proof.
  unfold lts, String.ltb. intros Hne H.
  rewrite String.compare_antisym.
  destruct (String.compare a b) eqn:E; try discriminate; try reflexivity.
  apply String.compare_eq_iff in E. contradiction.
Qed.

Lemma lts_irrefl (a : string) : lts a a = false.
Proof.
  destruct (lts a a) eqn:E; [|reflexivity].
  apply lts_strict in E. destruct E as [E _].
  unfold eqs in E. rewrite String.eqb_refl in E. discriminate.
Qed.

(** ** The token pair orderer *)

(** C5. For identifiers [a] and [b] that differ as identifiers are compared
    (without regard to case), ordering (a, b) and ordering (b, a) give the
    same pair, and in it the lower-cased first token sorts strictly before
    the lower-cased second one. *)
Theorem orderTokens_symmetric (a b : string)
    (Hdistinct : toLowerCase a <> toLowerCase b) :
  orderTokens a b = orderTokens b a /\
  lts (toLowerCase (fst (orderTokens a b)))
      (toLowerCase (snd (orderTokens a b))) = true.
Proof.
  unfold orderTokens.
  destruct (lts (toLowerCase a) (toLowerCase b)) eqn:Hab.
  - destruct (lts_strict _ _ Hab) as (_ & _ & Hba). rewrite Hba.
    split; [reflexivity | exact Hab].
  - rewrite (lts_connected _ _ Hdistinct Hab).
    split; [reflexivity |]. cbn [fst snd].
    apply lts_connected; assumption.
Qed.

Lemma orderTokens_symmetric_witness :
  toLowerCase Demo.tokenHigh <> toLowerCase WETH_ADDRESS /\
  orderTokens Demo.tokenHigh WETH_ADDRESS = (WETH_ADDRESS, Demo.tokenHigh) /\
  orderTokens Demo.tokenHigh WETH_ADDRESS = orderTokens WETH_ADDRESS Demo.tokenHigh /\
  lts (toLowerCase (fst (orderTokens Demo.tokenHigh WETH_ADDRESS)))
      (toLowerCase (snd (orderTokens Demo.tokenHigh WETH_ADDRESS))) = true.
Proof.
  assert (H : toLowerCase Demo.tokenHigh <> toLowerCase WETH_ADDRESS)
    by (vm_compute; discriminate).
  split; [exact H |].
  split; [vm_compute; reflexivity |].
  exact (orderTokens_symmetric Demo.tokenHigh WETH_ADDRESS H).
Defined.

(** Identifiers that differ only by case are not covered by C5: the two
    orders then give the two different pairs. *)
Example orderTokens_case_variants :
  orderTokens "0xAB" "0xab" = ("0xab", "0xAB") /\
  orderTokens "0xab" "0xAB" = ("0xAB", "0xab").
Proof. split; reflexivity. Qed.

(** C7, amended. Ordering two identifiers that are equal without regard to
    case does not fail: it returns the second one as token0 and the first as
    token1 (in [main]: WETH first, then the user's token), a pair whose
    lower-cased members are equal and so not strictly ordered. *)
Theorem orderTokens_same_identifier (a b : string)
    (Hsame : toLowerCase a = toLowerCase b) :
  orderTokens a b = (b, a) /\
  lts (toLowerCase (fst (orderTokens a b)))
      (toLowerCase (snd (orderTokens a b))) = false.
Proof.
  unfold orderTokens. rewrite Hsame, lts_irrefl. cbn [fst snd].
  rewrite Hsame, lts_irrefl. split; reflexivity.
Qed.

Lemma orderTokens_same_identifier_witness :
  toLowerCase (toLowerCase WETH_ADDRESS) = toLowerCase WETH_ADDRESS /\
  orderTokens (toLowerCase WETH_ADDRESS) WETH_ADDRESS
  = (WETH_ADDRESS, toLowerCase WETH_ADDRESS).
Proof.
  assert (H : toLowerCase (toLowerCase WETH_ADDRESS) = toLowerCase WETH_ADDRESS)
    by reflexivity.
  split; [exact H |].
  exact (proj1 (orderTokens_same_identifier _ _ H)).
Defined.

(** ** The price encoder *)

Lemma le_zero_not_gt (p : number) : le p (ofZ 0) = true -> gt p (ofZ 0) = false.
Proof. destruct p as [s | s | | s m e]; try destruct s; cbn; congruence. Qed.

Lemma encodePriceSqrt_le_zero (p : number) :
  le p (ofZ 0) = true ->
  encodePriceSqrt p =
    match p with S754_zero _ => Ok 0 | _ => Throw RangeError end.
Proof.
  destruct p as [s | s | | s m e]; try destruct s; cbn; congruence.
Qed.

(** C6, counterexample. The encoder returns 0 on the price 0: it does not
    fail. *)
Lemma encodePriceSqrt_zero_returns :
  le (ofZ 0) (ofZ 0) = true /\ encodePriceSqrt (ofZ 0) = Ok 0.
Proof. split; reflexivity. Qed.

(** ** Placement under the two canonical orders *)

Lemma token_sorts_first (t : string) :
  lts (toLowerCase t) (toLowerCase WETH_ADDRESS) = true ->
  orderTokens t WETH_ADDRESS = (t, WETH_ADDRESS) /\
  eqs (toLowerCase WETH_ADDRESS) (toLowerCase t) = false.
Proof.
  intros H. unfold orderTokens. rewrite H. split; [reflexivity |].
  apply lts_strict in H. tauto.
Qed.

Lemma weth_sorts_first (t : string) :
  lts (toLowerCase WETH_ADDRESS) (toLowerCase t) = true ->
  orderTokens t WETH_ADDRESS = (WETH_ADDRESS, t) /\
  eqs (toLowerCase WETH_ADDRESS) (toLowerCase t) = false.
Proof.
  intros H. unfold orderTokens. apply lts_strict in H.
  destruct H as (H1 & H2 & H3). rewrite H3. split; [reflexivity | exact H1].
Qed.

Lemma eqs_refl (a : string) : eqs a a = true.
Proof. apply String.eqb_refl. Qed.

Lemma callsOf_In (c : ContractCall) (log : list Event) :
  In c (callsOf log) <-> exists o, In (Submitted c o) log.
Proof.
  induction log as [| [c' o' | h r] log IH]; cbn [callsOf In].
  - split; [intros [] | intros [o []]].
  - rewrite IH. split.
    + intros [-> | [o H]]; [exists o'; left; reflexivity | exists o; right; exact H].
    + intros [o [H | H]]; [injection H as -> _; left; reflexivity | right; exists o; exact H].
  - rewrite IH. split.
    + intros [o H]; exists o; right; exact H.
    + intros [o [H | H]]; [discriminate | exists o; exact H].
Qed.

(** The wrap amount is the text "0" when the user declines the wrap or
    types exactly 0 (lines 199-204). *)
Lemma wrapAmountEth_zero (w : World) :
  eqs (wrapAmountEth w) "0" = true <->
  (let wrapAnswer := toLowerCase (trim (wrapAnswerReply (replies w))) in
   eqs wrapAnswer "y" || eqs wrapAnswer "yes" = false) \/
  wrapAmountReply (replies w) = "0".
Proof.
  unfold wrapAmountEth. cbv zeta.
  destruct (eqs _ "y" || eqs _ "yes").
  - destruct (wrapAmountReply (replies w)) as [| c r] eqn:E; cbn [orElse].
    + split; [discriminate | intros [H | H]; discriminate].
    + unfold eqs. rewrite String.eqb_eq. split; [auto | intros [H | H]; congruence].
  - split; [auto | reflexivity].
Qed.

Section Properties.

Variable lib : Library.
Variable w : World.

Lemma run_gated : Gated (snd (run lib w)).
Proof.
  run_exec. all: repeat constructor.
Qed.

Lemma run_prefix_of_scenario :
  mode w <> wrap ->
  exists rest, scenario lib w = (callsOf (snd (run lib w)) ++ rest)%list.
Proof.
  intros Hmode. unfold scenario, pair, target.
  run_exec; try congruence.
  all: recall; cbn [callsOf app]; eexists; reflexivity.
Qed.

Lemma run_done_confirmed :
  mode w <> wrap ->
  fst (run lib w) = Ok tt -> Confirmed (snd (run lib w)) (scenario lib w).
Proof.
  intros Hmode. unfold scenario, pair, target.
  run_exec; try congruence; try discriminate.
  all: intros _; recall; repeat constructor.
Qed.

(** What a submitted call of each kind carries. *)

Lemma mint_submitted (a : string) (p : MintParams) (o : Result Hash) :
  In (Submitted (mint a p) o) (snd (run lib w)) ->
  a = NPM_ADDRESS /\
  token0 p = fst (pair w) /\
  token1 p = snd (pair w) /\
  fee p = feeTier lib w /\
  tickLower p = TICK_LOWER /\
  tickUpper p = TICK_UPPER /\
  parseEther lib (slotAmount (fst (pair w)) (tokenAddress w)
                    (amountTokenStr w) (amountWethStr w))
    = Ok (amount0Desired p) /\
  parseEther lib (slotAmount (snd (pair w)) (tokenAddress w)
                    (amountTokenStr w) (amountWethStr w))
    = Ok (amount1Desired p) /\
  amount0Min p = 0 /\
  amount1Min p = 0 /\
  privateKeyToAccount lib (privateKey w) = Ok (recipient p) /\
  deadline p = dateNow w / 1000 + 600.
Proof.
  unfold pair. run_exec; intros H; in_log H.
  all: injection H as <- <- <-; cbn; repeat split; assumption.
Qed.

Lemma initialize_submitted (a t0 t1 : string) (f : number) (sp : Z)
    (o : Result Hash) :
  In (Submitted (createAndInitializePoolIfNecessary a t0 t1 f sp) o)
     (snd (run lib w)) ->
  mode w = init /\
  a = NPM_ADDRESS /\ t0 = fst (pair w) /\ t1 = snd (pair w) /\
  f = feeTier lib w /\
  gt (target lib w) (ofZ 0) = true /\
  encodePriceSqrt (poolPrice (fst (pair w)) (tokenAddress w) (target lib w))
    = Ok sp.
Proof.
  unfold pair, target. run_exec; intros H; in_log H.
  all: injection H as <- <- <- <- <- <-; cbn; repeat split;
    (assumption || reflexivity).
Qed.

Lemma deposit_submitted (a : string) (v : Z) (o : Result Hash) :
  In (Submitted (deposit a v) o) (snd (run lib w)) ->
  a = WETH_ADDRESS /\
  (exists account, privateKeyToAccount lib (privateKey w) = Ok account) /\
  match mode w with
  | wrap => parseEther lib (orElse (wrapOnlyReply (replies w)) "0.1") = Ok v
  | _ => eqs (wrapAmountEth w) "0" = false /\
         parseEther lib (wrapAmountEth w) = Ok v
  end.
Proof.
  run_exec; intros H; in_log H.
  all: injection H as <- <- <-; repeat split; eauto.
Qed.

(** A requested wrap is the first call of a run. *)
Lemma deposit_first (account : string) (v : Z) :
  mode w <> wrap ->
  eqs (wrapAmountEth w) "0" = false ->
  privateKeyToAccount lib (privateKey w) = Ok account ->
  parseEther lib (wrapAmountEth w) = Ok v ->
  exists o rest,
    snd (run lib w) = Submitted (deposit WETH_ADDRESS v) o :: rest.
Proof.
  intros Hmode Hw Hacc Hv. run_unfold. rewrite Hacc.
  destruct (mode w) eqn:Hm; try congruence.
  all: destruct (orderTokens (tokenAddress w) WETH_ADDRESS) as [t0 t1].
  all: rewrite Hw, Hv; cbn [negb app fst snd].
  all: repeat run_step; eexists; eexists; reflexivity.
Qed.

Lemma no_deposit_without_request :
  mode w <> wrap ->
  eqs (wrapAmountEth w) "0" = true ->
  forall a v, ~ In (deposit a v) (callsOf (snd (run lib w))).
Proof.
  intros Hmode Hw a v. run_unfold.
  destruct (mode w) eqn:Hm; try congruence.
  all: destruct (privateKeyToAccount lib (privateKey w)); cbn [fst snd];
    [| intros []].
  all: destruct (orderTokens (tokenAddress w) WETH_ADDRESS) as [t0 t1].
  all: rewrite Hw; cbn [negb app fst snd].
  all: repeat run_step; cbn [callsOf]; intros H; in_log H.
Qed.

(** The run of the init mode on a target price that is not above 0. *)
Lemma invalid_price_run :
  mode w = init ->
  gt (target lib w) (ofZ 0) = false ->
  (exists e,
      fst (run lib w) = Throw e /\
      (e = InvalidTargetPrice \/
       privateKeyToAccount lib (privateKey w) = Throw e \/
       parseEther lib (wrapAmountEth w) = Throw e \/
       exists ev, In ev (snd (run lib w)) /\ failure ev = Some e)) /\
  (eqs (wrapAmountEth w) "0" = true -> snd (run lib w) = []) /\
  (callsOf (snd (run lib w)) = [] \/
   exists v,
     eqs (wrapAmountEth w) "0" = false /\
     parseEther lib (wrapAmountEth w) = Ok v /\
     callsOf (snd (run lib w)) = [deposit WETH_ADDRESS v]).
Proof.
  unfold target. intros Hmode Hgt. run_unfold. rewrite Hmode.
  destruct (privateKeyToAccount lib (privateKey w)) as [account | e];
    cbn [fst snd].
  2: { split; [eauto 6 | split; auto]. }
  destruct (orderTokens (tokenAddress w) WETH_ADDRESS) as [t0 t1].
  rewrite Hgt. cbn [negb].
  repeat run_step; cbn [callsOf In failure].
  all: split; [eexists; split; [reflexivity |] | split; [congruence |]].
  all: try (left; reflexivity).
  all: try (right; eexists; repeat split; reflexivity).
  all: try (right; right; left; reflexivity).
  all: right; right; right;
    first [ solve [eexists; split; [left; reflexivity | reflexivity]]
          | solve [eexists; split; [right; left; reflexivity | reflexivity]] ].
Qed.

(** A rejected submission or a failed confirmation ends the run: it is
    the last event of the log and its error is the result. *)
Lemma run_halts_at_failure (ev : Event) (e : Error) :
  In ev (snd (run lib w)) -> failure ev = Some e ->
  fst (run lib w) = Throw e /\ exists before, snd (run lib w) = (before ++ [ev])%list.
Proof.
  run_exec; intros H Hf; in_log H; subst ev; cbn [failure] in Hf;
    try discriminate.
  all: injection Hf as <-; split; [reflexivity |].
  all: match goal with
       | |- exists b, ?l = _ => exists (removelast l); reflexivity
       end.
Qed.

(** The run in which the confirmation of the pool initialization fails. *)
Lemma failed_initialize_run (e : Error) :
  InitConfirmationFails e (snd (run lib w)) ->
  fst (run lib w) = Throw e /\
  exists wrapping sp h,
    snd (run lib w) =
      (wrapping ++
       [Submitted (createAndInitializePoolIfNecessary NPM_ADDRESS
                     (fst (pair w)) (snd (pair w)) (feeTier lib w) sp) (Ok h);
        Awaited h (Throw e)])%list /\
    (wrapping = [] \/
     exists v hw rw,
       wrapping = [Submitted (deposit WETH_ADDRESS v) (Ok hw);
                   Awaited hw (Ok rw)]).
Proof.
  unfold pair. run_exec; cbn [InitConfirmationFails]; intros H.
  all: repeat match type of H with
              | _ \/ _ => destruct H as [H | H]
              | _ /\ _ => destruct H as [_ H]
              end; try contradiction.
  all: subst; split; [reflexivity |].
  all: first
    [ exists []; eexists; eexists; split; [reflexivity | left; reflexivity]
    | eexists [_; _]; eexists; eexists; split;
      [reflexivity | right; eexists; eexists; eexists; reflexivity] ].
Qed.

Lemma run_completes : mode w <> wrap -> Ready lib w -> fst (run lib w) = Ok tt.
Proof.
  intros Hmode. unfold Ready, target, pair.
  run_exec; try congruence.
  all: intros (Hc & [acc Hacc] & Hwrap & Hinit & [x Hx] & [y Hy]).
  all: try reflexivity; try congruence.
  all: try (destruct (Hwrap eq_refl) as [v Hv]).
  all: try (destruct (Hinit eq_refl) as [Hgt [sp Hsp]]; cbn [fst] in Hsp).
  all: try congruence.
  all: unfold slotAmount in *.
  all: match goal with
       | H : writeContract (connect w ?u ?a) ?l ?x = Throw _ |- _ =>
           destruct (proj1 (Hc u a) l x); congruence
       | H : waitForTransactionReceipt (connect w ?u ?a) ?l ?x = Throw _ |- _ =>
           destruct (proj2 (Hc u a) l x); congruence
       | H : parseEther _ (if ?b then _ else _) = Throw _ |- _ =>
           destruct b; congruence
       end.
Qed.

(** C1, amended. In the init mode a target price that is not above 0
    aborts the run before the pool initialization: the run ends with an
    error, and the only call it can have submitted is the requested wrap,
    which comes before the price check (a run without a wrap request
    submits nothing). Identical token identifiers and amounts that are
    both zero are not validated: with well-formed inputs and a chain that
    confirms everything such a run of the init or add mode ends
    normally. *)
Theorem invalid_price_stops_before_initialize :
  (mode w = init -> gt (target lib w) (ofZ 0) = false ->
     (exists e, fst (run lib w) = Throw e) /\
     (eqs (wrapAmountEth w) "0" = true -> snd (run lib w) = []) /\
     (callsOf (snd (run lib w)) = [] \/
      exists v,
        eqs (wrapAmountEth w) "0" = false /\
        parseEther lib (wrapAmountEth w) = Ok v /\
        callsOf (snd (run lib w)) = [deposit WETH_ADDRESS v])) /\
  (mode w <> wrap -> Ready lib w ->
     toLowerCase (tokenAddress w) = toLowerCase WETH_ADDRESS ->
     parseEther lib (amountTokenStr w) = Ok 0 ->
     parseEther lib (amountWethStr w) = Ok 0 ->
     fst (run lib w) = Ok tt).
Proof.
  split.
  - intros Hmode Hprice.
    destruct (invalid_price_run Hmode Hprice) as ([e [He _]] & Hnone & Hcalls).
    split; [exists e; exact He |]. split; assumption.
  - intros Hmode Hready _ _ _. apply run_completes; assumption.
Qed.

(** C2. In the mint call of a run the two entered quantities keep their
    values ([parseEther], the conversion to 10^18 base units) and are
    placed by the canonical order: token amount then WETH amount when the
    user's token is token0, WETH amount then token amount when it is
    token1. *)
Theorem amounts_follow_canonical_order
    (a : string) (p : MintParams) (o : Result Hash)
    (Hmint : In (Submitted (mint a p) o) (snd (run lib w))) :
  (lts (toLowerCase (tokenAddress w)) (toLowerCase WETH_ADDRESS) = true ->
     token0 p = tokenAddress w /\ token1 p = WETH_ADDRESS /\
     parseEther lib (amountTokenStr w) = Ok (amount0Desired p) /\
     parseEther lib (amountWethStr w) = Ok (amount1Desired p)) /\
  (lts (toLowerCase WETH_ADDRESS) (toLowerCase (tokenAddress w)) = true ->
     token0 p = WETH_ADDRESS /\ token1 p = tokenAddress w /\
     parseEther lib (amountWethStr w) = Ok (amount0Desired p) /\
     parseEther lib (amountTokenStr w) = Ok (amount1Desired p)).
Proof.
  destruct (mint_submitted _ _ _ Hmint)
    as (_ & H0 & H1 & _ & _ & _ & Ha0 & Ha1 & _).
  unfold pair, slotAmount in *. split; intros Hlt.
  - destruct (token_sorts_first _ Hlt) as [Hpair Hne].
    rewrite Hpair in *. cbn [fst snd] in *.
    rewrite eqs_refl in Ha0. rewrite Hne in Ha1. auto.
  - destruct (weth_sorts_first _ Hlt) as [Hpair Hne].
    rewrite Hpair in *. cbn [fst snd] in *.
    rewrite eqs_refl in Ha1. rewrite Hne in Ha0. auto.
Qed.

(** Without an account there is no client and nothing is logged. *)
Lemma run_without_account :
  (forall account, privateKeyToAccount lib (privateKey w) <> Ok account) ->
  snd (run lib w) = [].
Proof.
  intros Hnone. run_unfold.
  destruct (privateKeyToAccount lib (privateKey w)) as [account | e] eqn:E;
    [exfalso; exact (Hnone account eq_refl) | reflexivity].
Qed.

(** The log of a run holds the answers of the clients the run was
    connected to, asked in the order of the log. *)
Lemma run_answered (account : string) :
  privateKeyToAccount lib (privateKey w) = Ok account ->
  Answered (connect w (rpcUrl w) account) [] (snd (run lib w)).
Proof.
  run_exec; intros Hacc; try discriminate.
  all: injection Hacc as <-; cbn [Answered app]; repeat split;
    symmetry; assumption.
Qed.

(** C3. In the init and add modes the calls of a run are, in order, the
    sequence wrap (if requested), initialize (init mode only),
    approve(token0), approve(token1), mint: every run submits a prefix of
    it. No call is submitted before the one before it is confirmed: in the
    log a submission is followed by the wait on the hash it returned, a
    further submission comes only after a wait that returned a receipt, and
    every hash, receipt and error in the log is the very answer of the
    wallet client or of the public client of the run, asked at that point.
    A run that ends normally has submitted and confirmed exactly the
    sequence, and a run does end normally when the inputs are well formed
    and the chain confirms everything. *)
Theorem orchestrator_sequence (Hmode : mode w <> wrap) :
  Gated (snd (run lib w)) /\
  (forall account,
      privateKeyToAccount lib (privateKey w) = Ok account ->
      Answered (connect w (rpcUrl w) account) [] (snd (run lib w))) /\
  ((forall account, privateKeyToAccount lib (privateKey w) <> Ok account) ->
   snd (run lib w) = []) /\
  (exists rest, scenario lib w = (callsOf (snd (run lib w)) ++ rest)%list) /\
  (fst (run lib w) = Ok tt -> Confirmed (snd (run lib w)) (scenario lib w)) /\
  (Ready lib w -> fst (run lib w) = Ok tt).
Proof.
  split; [apply run_gated |].
  split; [apply run_answered |].
  split; [apply run_without_account |].
  split; [apply run_prefix_of_scenario; assumption |].
  split; [apply run_done_confirmed; assumption |].
  apply run_completes; assumption.
Qed.

(** C4. When the confirmation of the pool initialization fails, the run
    ends with that error; its log is the wrap (if one was requested,
    submitted once and confirmed), the initialization and the failed
    wait, so no approval and no mint is submitted and the wrap is neither
    repeated nor undone. At every step a rejected submission or a failed
    confirmation is the last event of the run and its error is the
    result: nothing is retried. *)
Theorem failed_initialize_halts :
  (forall e, InitConfirmationFails e (snd (run lib w)) ->
     fst (run lib w) = Throw e /\
     (exists wrapping sp h,
        snd (run lib w) =
          (wrapping ++
           [Submitted (createAndInitializePoolIfNecessary NPM_ADDRESS
                         (fst (pair w)) (snd (pair w)) (feeTier lib w) sp)
                      (Ok h);
            Awaited h (Throw e)])%list /\
        (wrapping = [] \/
         exists v hw rw,
           wrapping = [Submitted (deposit WETH_ADDRESS v) (Ok hw);
                       Awaited hw (Ok rw)])) /\
     (forall t s v, ~ In (approve t s v) (callsOf (snd (run lib w)))) /\
     (forall t p, ~ In (mint t p) (callsOf (snd (run lib w))))) /\
  (forall ev e, In ev (snd (run lib w)) -> failure ev = Some e ->
     fst (run lib w) = Throw e /\
     exists before, snd (run lib w) = (before ++ [ev])%list).
Proof.
  split.
  - intros e H. destruct (failed_initialize_run _ H) as (Hres & ws & sp & h & Hlog & Hws).
    split; [exact Hres |]. split; [exists ws, sp, h; auto |].
    rewrite Hlog.
    split; intros; destruct Hws as [-> | (v0 & hw & rw & ->)];
      cbn [app callsOf]; intros Hin; in_log Hin.
  - intros ev e. apply run_halts_at_failure.
Qed.

(** C6, amended. For a price p <= 0 the encoder itself has no check: it
    returns 0 when p is a zero and throws the RangeError of BigInt
    otherwise. The check is in [main]: in the init mode a target price
    p <= 0 never reaches the encoder, no pool initialization is submitted
    and the run ends with the invalid-price error, unless an earlier step
    (the account, the wrap amount or the wrap transaction) has already
    ended it with its own error. *)
Theorem nonpositive_price_rejected_in_main (p : number)
    (Hp : le p (ofZ 0) = true) :
  encodePriceSqrt p
    = match p with S754_zero _ => Ok 0 | _ => Throw RangeError end /\
  (mode w = init -> target lib w = p ->
     (forall a t0 t1 f sp o,
         ~ In (Submitted (createAndInitializePoolIfNecessary a t0 t1 f sp) o)
              (snd (run lib w))) /\
     exists e,
       fst (run lib w) = Throw e /\
       (e = InvalidTargetPrice \/
        privateKeyToAccount lib (privateKey w) = Throw e \/
        parseEther lib (wrapAmountEth w) = Throw e \/
        exists ev, In ev (snd (run lib w)) /\ failure ev = Some e)).
Proof.
  split; [apply encodePriceSqrt_le_zero; exact Hp |].
  intros Hmode Htarget.
  assert (Hgt : gt (target lib w) (ofZ 0) = false)
    by (rewrite Htarget; apply le_zero_not_gt; exact Hp).
  split.
  - intros a t0 t1 f sp o Hin.
    apply initialize_submitted in Hin. destruct Hin as (_ & _ & _ & _ & _ & Hin & _).
    congruence.
  - destruct (invalid_price_run Hmode Hgt) as (He & _). exact He.
Qed.

(** C8. Whenever a run submits the mint call, it goes to the position
    manager with tickLower = -887220, tickUpper = 887220, both minimum
    amounts 0, the caller's account as recipient and, as deadline, the
    current time in seconds plus 600. *)
Theorem mint_parameters (a : string) (p : MintParams) (o : Result Hash)
    (Hmint : In (Submitted (mint a p) o) (snd (run lib w))) :
  a = NPM_ADDRESS /\
  tickLower p = -887220 /\
  tickUpper p = 887220 /\
  amount0Min p = 0 /\
  amount1Min p = 0 /\
  privateKeyToAccount lib (privateKey w) = Ok (recipient p) /\
  deadline p = dateNow w / 1000 + 600.
Proof.
  destruct (mint_submitted _ _ _ Hmint)
    as (Ha & _ & _ & _ & Hl & Hu & _ & _ & H0 & H1 & Hr & Hd).
  repeat split; assumption.
Qed.

(** C9, amended. In the init and add modes a deposit is submitted exactly
    when the wrap amount is not the text "0" (the text when the user
    declines the wrap or types exactly 0), the account key is valid and
    [parseEther] accepts the amount; the deposit goes to WETH with the
    parsed value, whatever that value is. In the wrap mode the deposit
    does not depend on the amount being non-zero. *)
Theorem wrap_iff_not_literal_zero :
  (mode w <> wrap ->
     ((exists a v, In (deposit a v) (callsOf (snd (run lib w)))) <->
      eqs (wrapAmountEth w) "0" = false /\
      (exists account, privateKeyToAccount lib (privateKey w) = Ok account) /\
      (exists v, parseEther lib (wrapAmountEth w) = Ok v)) /\
     (forall a v o, In (Submitted (deposit a v) o) (snd (run lib w)) ->
        a = WETH_ADDRESS /\ parseEther lib (wrapAmountEth w) = Ok v)) /\
  (eqs (wrapAmountEth w) "0" = true <->
     (let wrapAnswer := toLowerCase (trim (wrapAnswerReply (replies w))) in
      eqs wrapAnswer "y" || eqs wrapAnswer "yes" = false) \/
     wrapAmountReply (replies w) = "0") /\
  (mode w = wrap ->
     forall a v o, In (Submitted (deposit a v) o) (snd (run lib w)) ->
       a = WETH_ADDRESS /\
       parseEther lib (orElse (wrapOnlyReply (replies w)) "0.1") = Ok v).
Proof.
  split; [| split; [apply wrapAmountEth_zero |]].
  - intros Hmode. split; [split |].
    + intros (a & v & Hin). apply callsOf_In in Hin. destruct Hin as [o Hin].
      apply deposit_submitted in Hin. destruct Hin as (_ & Hacc & Hm).
      destruct (mode w); try congruence; destruct Hm; eauto.
    + intros (Hw & [account Hacc] & [v Hv]).
      destruct (deposit_first _ _ Hmode Hw Hacc Hv) as (o & rest & Hlog).
      exists WETH_ADDRESS, v. apply callsOf_In. exists o. rewrite Hlog.
      left; reflexivity.
    + intros a v o Hin. apply deposit_submitted in Hin.
      destruct Hin as (Ha & _ & Hm).
      destruct (mode w); try congruence; destruct Hm; auto.
  - intros Hmode a v o Hin. apply deposit_submitted in Hin.
    destruct Hin as (Ha & _ & Hm). rewrite Hmode in Hm. auto.
Qed.

(** C10. The price given to the encoder in a pool initialization is
    token1 per token0 of the canonical pair: the reciprocal 1/target of
    the entered tokens-per-WETH target when the user's token sorts as
    token0, the target itself when WETH sorts as token0. *)
Theorem encoder_price_orientation
    (a t0 t1 : string) (f : number) (sp : Z) (o : Result Hash)
    (Hinit : In (Submitted (createAndInitializePoolIfNecessary a t0 t1 f sp) o)
                (snd (run lib w))) :
  (lts (toLowerCase (tokenAddress w)) (toLowerCase WETH_ADDRESS) = true ->
     t0 = tokenAddress w /\ t1 = WETH_ADDRESS /\
     poolPrice t0 (tokenAddress w) (target lib w) = div (ofZ 1) (target lib w) /\
     encodePriceSqrt (div (ofZ 1) (target lib w)) = Ok sp) /\
  (lts (toLowerCase WETH_ADDRESS) (toLowerCase (tokenAddress w)) = true ->
     t0 = WETH_ADDRESS /\ t1 = tokenAddress w /\
     poolPrice t0 (tokenAddress w) (target lib w) = target lib w /\
     encodePriceSqrt (target lib w) = Ok sp).
Proof.
  destruct (initialize_submitted _ _ _ _ _ _ Hinit)
    as (_ & _ & H0 & H1 & _ & _ & Hsp).
  unfold pair, poolPrice in *. split; intros Hlt.
  - destruct (token_sorts_first _ Hlt) as [Hpair Hne].
    rewrite Hpair in *. cbn [fst snd] in *. subst t0 t1.
    rewrite eqs_refl in *. auto.
  - destruct (weth_sorts_first _ Hlt) as [Hpair Hne].
    rewrite Hpair in *. cbn [fst snd] in *. subst t0 t1.
    rewrite Hne in *. auto.
Qed.

End Properties.

(** ** The theorems at concrete runs *)

Lemma goodClient_cooperative : Cooperative Demo.goodClient.
Proof. split; intros; eexists; reflexivity. Qed.

Lemma initHigh_ready : Ready Demo.library Demo.initHigh.
Proof.
  split; [intros; apply goodClient_cooperative |].
  split; [exists Demo.testAccount; reflexivity |].
  split; [intros _; exists (2 * 10 ^ 17); reflexivity |].
  split; [intros _; split; [reflexivity |];
          exists 5010828967500958503831733272576; vm_compute; reflexivity |].
  split; [exists (800 * 10 ^ 18) | exists (2 * 10 ^ 17)]; reflexivity.
Qed.

Lemma nothingToAdd_ready : Ready Demo.library Demo.nothingToAdd.
Proof.
  split; [intros; apply goodClient_cooperative |].
  split; [exists Demo.testAccount; reflexivity |].
  split; [intros H; vm_compute in H; discriminate |].
  split; [intros H; vm_compute in H; discriminate |].
  split; exists 0; reflexivity.
Qed.

(** C1, counterexample. In the init mode with a wrap of 0.2 and the target
    price 0, the deposit is submitted and confirmed before the price is
    rejected; and a run whose token is WETH itself and whose amounts are
    both 0 is not rejected at all. *)
Lemma wrap_precedes_price_check :
  run Demo.library Demo.badPrice
  = (Throw InvalidTargetPrice,
     [Submitted (deposit WETH_ADDRESS 200000000000000000) (Ok "0xa");
      Awaited "0xa" (Ok {| blockNumber := 101 |})]) /\
  fst (run Demo.library Demo.nothingToAdd) = Ok tt /\
  List.length (callsOf (snd (run Demo.library Demo.nothingToAdd))) = 3%nat.
Proof. vm_compute. repeat split. Qed.

Lemma invalid_price_stops_before_initialize_witness :
  (mode Demo.badPrice = init /\
   gt (target Demo.library Demo.badPrice) (ofZ 0) = false /\
   exists e, fst (run Demo.library Demo.badPrice) = Throw e) /\
  (mode Demo.nothingToAdd <> wrap /\
   Ready Demo.library Demo.nothingToAdd /\
   fst (run Demo.library Demo.nothingToAdd) = Ok tt).
Proof.
  assert (Hm : mode Demo.badPrice = init) by reflexivity.
  assert (Hp : gt (target Demo.library Demo.badPrice) (ofZ 0) = false)
    by reflexivity.
  assert (Hm' : mode Demo.nothingToAdd <> wrap) by (vm_compute; discriminate).
  split.
  - split; [exact Hm |]. split; [exact Hp |].
    exact (proj1 (proj1 (invalid_price_stops_before_initialize
                           Demo.library Demo.badPrice) Hm Hp)).
  - split; [exact Hm' |]. split; [exact nothingToAdd_ready |].
    apply (proj2 (invalid_price_stops_before_initialize
                    Demo.library Demo.nothingToAdd) Hm' nothingToAdd_ready);
      reflexivity.
Defined.

Lemma amounts_follow_canonical_order_witness :
  In (Submitted (mint NPM_ADDRESS Demo.paramsLow) (Ok "0xd"))
     (snd (run Demo.library Demo.initLow)) /\
  lts (toLowerCase (tokenAddress Demo.initLow)) (toLowerCase WETH_ADDRESS) = true /\
  parseEther Demo.library (amountTokenStr Demo.initLow) = Ok (800 * 10 ^ 18) /\
  parseEther Demo.library (amountWethStr Demo.initLow) = Ok (2 * 10 ^ 17).
Proof.
  assert (H : In (Submitted (mint NPM_ADDRESS Demo.paramsLow) (Ok "0xd"))
                 (snd (run Demo.library Demo.initLow))) by find_in_log.
  assert (Hlt : lts (toLowerCase (tokenAddress Demo.initLow))
                    (toLowerCase WETH_ADDRESS) = true) by reflexivity.
  split; [exact H |]. split; [exact Hlt |].
  exact (proj2 (proj2 (proj1 (amounts_follow_canonical_order
                                Demo.library Demo.initLow _ _ _ H) Hlt))).
Defined.

Lemma orchestrator_sequence_witness :
  mode Demo.initHigh <> wrap /\
  Ready Demo.library Demo.initHigh /\
  privateKeyToAccount Demo.library (privateKey Demo.initHigh) = Ok Demo.testAccount /\
  Gated (snd (run Demo.library Demo.initHigh)) /\
  Answered Demo.goodClient [] (snd (run Demo.library Demo.initHigh)) /\
  fst (run Demo.library Demo.initHigh) = Ok tt /\
  Confirmed (snd (run Demo.library Demo.initHigh))
            (scenario Demo.library Demo.initHigh).
Proof.
  assert (Hm : mode Demo.initHigh <> wrap) by (vm_compute; discriminate).
  assert (Hk : privateKeyToAccount Demo.library (privateKey Demo.initHigh)
               = Ok Demo.testAccount) by reflexivity.
  pose proof (orchestrator_sequence Demo.library Demo.initHigh Hm)
    as (Hgated & Hanswered & _ & _ & Hdone & Hlive).
  split; [exact Hm |]. split; [exact initHigh_ready |].
  split; [exact Hk |]. split; [exact Hgated |].
  split; [exact (Hanswered Demo.testAccount Hk) |].
  split; [exact (Hlive initHigh_ready) |].
  exact (Hdone (Hlive initHigh_ready)).
Defined.

Lemma failed_initialize_halts_witness :
  InitConfirmationFails (Raised "execution reverted")
    (snd (run Demo.library Demo.reverting)) /\
  fst (run Demo.library Demo.reverting) = Throw (Raised "execution reverted") /\
  callsOf (snd (run Demo.library Demo.reverting))
  = [deposit WETH_ADDRESS (2 * 10 ^ 17);
     createAndInitializePoolIfNecessary NPM_ADDRESS Demo.tokenLow WETH_ADDRESS
       (ofZ 3000) 1252707241875239577579421696].
Proof.
  assert (H : InitConfirmationFails (Raised "execution reverted")
                (snd (run Demo.library Demo.reverting)))
    by (vm_compute; right; right; left; split; reflexivity).
  split; [exact H |].
  split; [| vm_compute; reflexivity].
  exact (proj1 (proj1 (failed_initialize_halts Demo.library Demo.reverting) _ H)).
Defined.

Lemma nonpositive_price_rejected_in_main_witness :
  le (ofZ 0) (ofZ 0) = true /\
  mode Demo.badPrice = init /\
  target Demo.library Demo.badPrice = ofZ 0 /\
  encodePriceSqrt (ofZ 0) = Ok 0 /\
  forall a t0 t1 f sp o,
    ~ In (Submitted (createAndInitializePoolIfNecessary a t0 t1 f sp) o)
         (snd (run Demo.library Demo.badPrice)).
Proof.
  assert (Hp : le (ofZ 0) (ofZ 0) = true) by reflexivity.
  assert (Hm : mode Demo.badPrice = init) by reflexivity.
  assert (Ht : target Demo.library Demo.badPrice = ofZ 0) by reflexivity.
  pose proof (nonpositive_price_rejected_in_main
                Demo.library Demo.badPrice (ofZ 0) Hp) as [Henc Hmain].
  repeat split; try assumption.
  exact (proj1 (Hmain Hm Ht)).
Defined.

(** C7, counterexample. With WETH itself entered as the user's token the
    two identifiers are identical; the order is computed, nothing fails, and
    the run approves WETH twice and mints a WETH/WETH position. *)
Lemma identical_tokens_run_completes :
  tokenAddress Demo.sameToken = WETH_ADDRESS /\
  orderTokens WETH_ADDRESS WETH_ADDRESS = (WETH_ADDRESS, WETH_ADDRESS) /\
  fst (run Demo.library Demo.sameToken) = Ok tt /\
  callsOf (snd (run Demo.library Demo.sameToken))
  = [approve WETH_ADDRESS NPM_ADDRESS maxUint256;
     approve WETH_ADDRESS NPM_ADDRESS maxUint256;
     mint NPM_ADDRESS Demo.paramsSame].
Proof. vm_compute. repeat split. Qed.

Lemma mint_parameters_witness :
  In (Submitted (mint NPM_ADDRESS Demo.paramsLow) (Ok "0xd"))
     (snd (run Demo.library Demo.initLow)) /\
  tickLower Demo.paramsLow = -887220 /\
  tickUpper Demo.paramsLow = 887220 /\
  privateKeyToAccount Demo.library (privateKey Demo.initLow)
  = Ok (recipient Demo.paramsLow) /\
  deadline Demo.paramsLow = dateNow Demo.initLow / 1000 + 600.
Proof.
  assert (H : In (Submitted (mint NPM_ADDRESS Demo.paramsLow) (Ok "0xd"))
                 (snd (run Demo.library Demo.initLow))) by find_in_log.
  pose proof (mint_parameters Demo.library Demo.initLow _ _ _ H)
    as (_ & Hl & Hu & _ & _ & Hr & Hd).
  repeat split; assumption.
Defined.

(** C9, counterexample. A wrap amount of "0.0" is zero, and the deposit is
    submitted all the same, with the value 0. *)
Lemma zero_spelled_0_0_is_wrapped :
  wrapAmountEth Demo.zeroSpelled = "0.0" /\
  parseEther Demo.library "0.0" = Ok 0 /\
  In (Submitted (deposit WETH_ADDRESS 0) (Ok "0xa"))
     (snd (run Demo.library Demo.zeroSpelled)).
Proof.
  split; [reflexivity |]. split; [reflexivity |]. find_in_log.
Qed.

Lemma wrap_iff_not_literal_zero_witness :
  mode Demo.zeroSpelled <> wrap /\
  eqs (wrapAmountEth Demo.zeroSpelled) "0" = false /\
  exists a v, In (deposit a v) (callsOf (snd (run Demo.library Demo.zeroSpelled))).
Proof.
  assert (Hm : mode Demo.zeroSpelled <> wrap) by (vm_compute; discriminate).
  split; [exact Hm |]. split; [reflexivity |].
  apply (proj1 (wrap_iff_not_literal_zero Demo.library Demo.zeroSpelled) Hm).
  split; [reflexivity |].
  split; [exists Demo.testAccount | exists 0]; reflexivity.
Defined.

Lemma encoder_price_orientation_witness :
  In (Submitted
        (createAndInitializePoolIfNecessary NPM_ADDRESS Demo.tokenLow WETH_ADDRESS
           (ofZ 3000) 1252707241875239577579421696) (Ok "0xa"))
     (snd (run Demo.library Demo.initLow)) /\
  lts (toLowerCase (tokenAddress Demo.initLow)) (toLowerCase WETH_ADDRESS) = true /\
  target Demo.library Demo.initLow = ofZ 4000 /\
  encodePriceSqrt (div (ofZ 1) (target Demo.library Demo.initLow))
  = Ok 1252707241875239577579421696.
Proof.
  assert (H : In (Submitted
                    (createAndInitializePoolIfNecessary NPM_ADDRESS Demo.tokenLow
                       WETH_ADDRESS (ofZ 3000) 1252707241875239577579421696)
                    (Ok "0xa"))
                 (snd (run Demo.library Demo.initLow))) by find_in_log.
  assert (Hlt : lts (toLowerCase (tokenAddress Demo.initLow))
                    (toLowerCase WETH_ADDRESS) = true) by reflexivity.
  split; [exact H |]. split; [exact Hlt |]. split; [reflexivity |].
  exact (proj2 (proj2 (proj2 (proj1 (encoder_price_orientation
                                       Demo.library Demo.initLow _ _ _ _ _ _ H) Hlt)))).
Defined.

(** * More of the program *)

(** ** The mode prompt (lines 98-116) *)

Lemma lowerUnit_digit (c d : ascii) :
  d = "2"%char \/ d = "3"%char -> lowerUnit c = d -> c = d.
Proof.
  intros [-> | ->];
    destruct c as [[] [] [] [] [] [] [] []]; vm_compute; congruence.
Qed.

Lemma toLowerCase_digit (s : string) (d : ascii) :
  d = "2"%char \/ d = "3"%char ->
  (toLowerCase s = String d EmptyString <-> s = String d EmptyString).
Proof.
  intros Hd. split.
  - destruct s as [| c [| c' s']]; cbn [toLowerCase]; try discriminate.
    intros H. injection H as H. apply (lowerUnit_digit _ _ Hd) in H.
    rewrite H. reflexivity.
  - intros ->. destruct Hd as [-> | ->]; reflexivity.
Qed.

(** X1. The mode is read off the trimmed reply alone: "2" is the add mode,
    "3" the wrap mode, and every other reply (also "1", the empty reply or
    any other text) is the init mode. *)
Theorem askMode_replies (reply : string) :
  (askMode reply = add <-> trim reply = "2") /\
  (askMode reply = wrap <-> trim reply = "3") /\
  (askMode reply = init <-> trim reply <> "2" /\ trim reply <> "3").
Proof.
  unfold askMode, eqs. cbv zeta.
  pose proof (toLowerCase_digit (trim reply) "2" (or_introl eq_refl)) as H2.
  pose proof (toLowerCase_digit (trim reply) "3" (or_intror eq_refl)) as H3.
  destruct (String.eqb_spec (toLowerCase (trim reply)) "2") as [E2 | E2].
  - apply H2 in E2. rewrite E2. repeat split; try congruence.
    + intros [H _]. congruence.
  - destruct (String.eqb_spec (toLowerCase (trim reply)) "3") as [E3 | E3].
    + apply H3 in E3. rewrite E3. repeat split; try congruence.
      intros [_ H]. congruence.
    + assert (N2 : trim reply <> "2") by (intros H; apply E2, H2, H).
      assert (N3 : trim reply <> "3") by (intros H; apply E3, H3, H).
      repeat split; try congruence; intros; contradiction.
Qed.

(** ** The fee tier and the private key (lines 130-131, 174-178) *)

Section Prompts.

Variable lib : Library.
Variable w : World.

(** X2. The fee tier is never 0 and never NaN: a blank reply, a reply that
    [Number] turns into 0 or one it cannot read give 10000, and every other
    reply gives the number read, whatever it is. *)
Theorem feeTier_fallback :
  truthy (feeTier lib w) = true /\
  (trim (feeInput (replies w)) = EmptyString -> feeTier lib w = ofZ 10000) /\
  (trim (feeInput (replies w)) <> EmptyString ->
   truthy (toNumber lib (trim (feeInput (replies w)))) = false ->
   feeTier lib w = ofZ 10000) /\
  (trim (feeInput (replies w)) <> EmptyString ->
   truthy (toNumber lib (trim (feeInput (replies w)))) = true ->
   feeTier lib w = toNumber lib (trim (feeInput (replies w)))).
Proof.
  unfold feeTier, orElseN, eqs. cbv zeta.
  destruct (String.eqb_spec (trim (feeInput (replies w))) EmptyString) as [E | E].
  - repeat split; try reflexivity; intros; contradiction.
  - destruct (truthy (toNumber lib (trim (feeInput (replies w))))) eqn:T.
    + repeat split; try assumption; try reflexivity; intros; congruence.
    + repeat split; try reflexivity; intros; congruence.
Qed.

(** X3. The key given to [privateKeyToAccount] always starts with "0x": a
    trimmed reply that has the prefix is kept as it is, and any other is
    prefixed once. *)
Theorem privateKey_prefixed :
  startsWith (privateKey w) "0x" = true /\
  (startsWith (trim (pkInput (replies w))) "0x" = true ->
   privateKey w = trim (pkInput (replies w))) /\
  (startsWith (trim (pkInput (replies w))) "0x" = false ->
   privateKey w = "0x" ++ trim (pkInput (replies w))).
Proof.
  unfold privateKey. cbv zeta.
  destruct (startsWith (trim (pkInput (replies w))) "0x") eqn:E.
  - split; [exact E |]. split; [reflexivity | discriminate].
  - split; [| split; [discriminate | reflexivity]].
    unfold startsWith. destruct (trim (pkInput (replies w))); reflexivity.
Qed.

End Prompts.

(** ** The encoder never returns a negative value (lines 93-96) *)

Lemma binary_round_aux_sign (mx ex : Z) (lx : location) :
  notNegative (binary_round_aux prec emax false mx ex lx).
Proof.
  unfold binary_round_aux.
  destruct (shr_fexp prec emax mx ex lx) as [r1 e1].
  destruct (shr_fexp prec emax _ e1 loc_Exact) as [r2 e2].
  destruct (shr_m r2); [exact I | | exact I].
  destruct (e2 <=? emax - prec); exact I.
Qed.

Lemma binary_round_aux_not_neg_infinity (mx ex : Z) (lx : location) :
  binary_round_aux prec emax false mx ex lx <> S754_infinity true.
Proof.
  unfold binary_round_aux.
  destruct (shr_fexp prec emax mx ex lx) as [r1 e1].
  destruct (shr_fexp prec emax _ e1 loc_Exact) as [r2 e2].
  destruct (shr_m r2); try discriminate.
  destruct (e2 <=? emax - prec); discriminate.
Qed.

Lemma binary_normalize_sign (m : Z) :
  0 <= m -> notNegative (binary_normalize prec emax m 0 false).
Proof.
  intros Hm. destruct m as [| m | m]; [exact I | | lia].
  unfold binary_normalize, binary_round.
  destruct (shl_align _ _ _) as [mz ez]. apply binary_round_aux_sign.
Qed.

Lemma Math_sqrt_sign (p : number) :
  notNegative (Math_sqrt p) /\ Math_sqrt p <> S754_infinity true.
Proof.
  destruct p as [s | [] | | [] m e]; try (split; [exact I | discriminate]).
  unfold Math_sqrt, SFsqrt.
  destruct (SFsqrt_core_binary prec emax (Z.pos m) e) as [[mz ez] lz].
  split; [apply binary_round_aux_sign | apply binary_round_aux_not_neg_infinity].
Qed.

Lemma mul_Q96_sign (x : number) :
  notNegative x -> x <> S754_infinity true -> notNegative (mul x (ofZ Q96)).
Proof.
  intros Hx Hinf.
  assert (E : ofZ Q96 = S754_finite false 4503599627370496 44) by reflexivity.
  rewrite E. destruct x as [s | [] | | [] m e]; try exact I; try contradiction.
  unfold mul, SFmul. cbn [xorb]. apply binary_round_aux_sign.
Qed.

Lemma Math_floor_sign (x : number) : notNegative x -> notNegative (Math_floor x).
Proof.
  destruct x as [s | s | | [] m e]; try exact (fun H => H); [intros [] |].
  intros _. unfold Math_floor. destruct (0 <=? e); [exact I |].
  apply binary_normalize_sign. cbn [cond_Zopp].
  apply Z.shiftr_nonneg. lia.
Qed.

Lemma BigInt_sign (x : number) (v : Z) :
  notNegative x -> BigInt x = Ok v -> 0 <= v.
Proof.
  destruct x as [s | s | | [] m e]; unfold BigInt, notNegative, cond_Zopp;
    try discriminate; try contradiction.
  - intros _ H. injection H as <-. lia.
  - intros _. destruct (0 <=? e) eqn:He.
    + intros H. assert (Hv : v = Z.pos m * 2 ^ e) by congruence.
      rewrite Hv. apply Z.mul_nonneg_nonneg; [lia |]. apply Z.pow_nonneg. lia.
    + destruct (Z.pos m mod 2 ^ (- e) =? 0); [| discriminate].
      intros H. assert (Hv : v = Z.pos m / 2 ^ (- e)) by congruence.
      rewrite Hv. apply Z.div_pos; [lia |].
      apply Z.pow_pos_nonneg; lia.
Qed.

(** X4. Whatever number it is given, the encoder either returns an integer
    that is not negative or throws BigInt's RangeError: no price is ever
    encoded as a negative sqrtPriceX96, and the encoder raises no error of
    its own. *)
Theorem encodePriceSqrt_range (price : number) :
  (forall v, encodePriceSqrt price = Ok v -> 0 <= v) /\
  (forall e, encodePriceSqrt price = Throw e -> e = RangeError).
Proof.
  unfold encodePriceSqrt. cbv zeta. split.
  - intros v. apply BigInt_sign. apply Math_floor_sign.
    apply mul_Q96_sign; apply Math_sqrt_sign.
  - intros e. destruct (Math_floor _) as [s | s | | s m x]; cbn [BigInt];
      try congruence.
    destruct (0 <=? x); [discriminate |].
    destruct (_ =? 0); congruence.
Qed.

(** ** The token pair orderer, further (lines 231-237) *)

(** X5. The canonical pair is a fixed point of the ordering: ordering the
    two tokens of a pair already ordered, which differ without regard to
    case, gives the same pair again. *)
Theorem orderTokens_idempotent (a b : string)
    (Hdistinct : toLowerCase a <> toLowerCase b) :
  orderTokens (fst (orderTokens a b)) (snd (orderTokens a b)) = orderTokens a b.
Proof.
  unfold orderTokens.
  destruct (lts (toLowerCase a) (toLowerCase b)) eqn:Hab; cbn [fst snd].
  - rewrite Hab. reflexivity.
  - rewrite (lts_connected _ _ Hdistinct Hab). reflexivity.
Qed.

(** X6. The side a token takes does not depend on the case in which its
    address is written: two spellings of one address are both placed first,
    or both second. *)
Theorem orderTokens_ignores_case (a a' b : string)
    (Hcase : toLowerCase a = toLowerCase a') :
  (orderTokens a b = (a, b) /\ orderTokens a' b = (a', b)) \/
  (orderTokens a b = (b, a) /\ orderTokens a' b = (b, a')).
Proof.
  unfold orderTokens. rewrite <- Hcase.
  destruct (lts (toLowerCase a) (toLowerCase b)); [left | right]; split; reflexivity.
Qed.

(** ** The runs, further *)

Section MoreProperties.

Variable lib : Library.
Variable w : World.

Lemma approve_submitted (a s : string) (v : Z) (o : Result Hash) :
  In (Submitted (approve a s v) o) (snd (run lib w)) ->
  mode w <> wrap /\ s = NPM_ADDRESS /\ v = maxUint256 /\
  (a = fst (pair w) \/ a = snd (pair w)).
Proof.
  unfold pair. run_exec; intros H; in_log H.
  all: injection H as <- <- <- <-; cbn [fst snd];
    repeat split; try discriminate; auto.
Qed.

Lemma pair_members :
  (fst (pair w) = tokenAddress w /\ snd (pair w) = WETH_ADDRESS) \/
  (fst (pair w) = WETH_ADDRESS /\ snd (pair w) = tokenAddress w).
Proof.
  unfold pair, orderTokens. destruct (lts _ _); cbn [fst snd]; auto.
Qed.

(** X7. Every approval a run submits names the position manager as spender
    and the largest 256-bit value as allowance, and is made on the user's
    token or on WETH; the wrap mode approves nothing. *)
Theorem approvals_only_to_position_manager
    (a s : string) (v : Z) (o : Result Hash)
    (Happrove : In (Submitted (approve a s v) o) (snd (run lib w))) :
  s = NPM_ADDRESS /\ v = 2 ^ 256 - 1 /\
  (a = tokenAddress w \/ a = WETH_ADDRESS) /\
  mode w <> wrap.
Proof.
  destruct (approve_submitted _ _ _ _ Happrove) as (Hm & Hs & Hv & Ha).
  repeat split; try assumption.
  destruct pair_members as [[E0 E1] | [E0 E1]]; rewrite E0, E1 in Ha; tauto.
Qed.

(** X8. The pool that is initialized is the pool that receives the
    liquidity: when a run submits both calls, they go to the same contract
    with the same token0, token1 and fee. *)
Theorem mint_targets_initialized_pool
    (a t0 t1 : string) (f : number) (sp : Z) (o : Result Hash)
    (a' : string) (p : MintParams) (o' : Result Hash)
    (Hinit : In (Submitted (createAndInitializePoolIfNecessary a t0 t1 f sp) o)
                (snd (run lib w)))
    (Hmint : In (Submitted (mint a' p) o') (snd (run lib w))) :
  a' = a /\ token0 p = t0 /\ token1 p = t1 /\ fee p = f.
Proof.
  destruct (initialize_submitted _ _ _ _ _ _ _ _ Hinit)
    as (_ & Ha & H0 & H1 & Hf & _).
  destruct (mint_submitted _ _ _ _ _ Hmint) as (Ha' & M0 & M1 & Mf & _).
  repeat split; congruence.
Qed.

(** X9. A run submits at most five transactions, at most four in the add
    mode and at most one in the wrap mode, and makes at most one
    confirmation wait per transaction. *)
Theorem transactions_bounded :
  (List.length (callsOf (snd (run lib w))) <= 5)%nat /\
  (mode w = add -> (List.length (callsOf (snd (run lib w))) <= 4)%nat) /\
  (mode w = wrap -> (List.length (callsOf (snd (run lib w))) <= 1)%nat) /\
  (List.length (snd (run lib w))
   <= 2 * List.length (callsOf (snd (run lib w))))%nat.
Proof.
  run_exec; cbn [callsOf List.length]; repeat split; intros; try discriminate; lia.
Qed.

(** X10. The wrap mode: the only call a run can submit is one deposit to
    WETH of the parsed amount, zero or not; a run that ends normally has
    submitted and confirmed exactly that deposit; and it does end normally
    when the key is valid, the amount is read and the chain confirms. *)
Theorem wrap_only_run (Hmode : mode w = wrap) :
  let amount := orElse (wrapOnlyReply (replies w)) "0.1" in
  (callsOf (snd (run lib w)) = [] \/
   exists v, parseEther lib amount = Ok v /\
             callsOf (snd (run lib w)) = [deposit WETH_ADDRESS v]) /\
  (fst (run lib w) = Ok tt ->
   exists v, parseEther lib amount = Ok v /\
             Confirmed (snd (run lib w)) [deposit WETH_ADDRESS v]) /\
  ((forall url account, Cooperative (connect w url account)) ->
   (exists account, privateKeyToAccount lib (privateKey w) = Ok account) ->
   (exists v, parseEther lib amount = Ok v) ->
   fst (run lib w) = Ok tt).
Proof.
  cbv zeta. run_unfold. rewrite Hmode.
  repeat run_step; cbn [callsOf].
  all: split; [| split].
  all: try (left; reflexivity).
  all: try (right; eexists; split; reflexivity).
  all: try discriminate.
  all: try (intros _; eexists; split; [reflexivity | repeat constructor]).
  all: intros Hc [acc Hacc] [v Hv]; try reflexivity; try congruence.
  all: match goal with
       | H : writeContract (connect w ?u ?a) ?l ?x = Throw _ |- _ =>
           destruct (proj1 (Hc u a) l x); congruence
       | H : waitForTransactionReceipt (connect w ?u ?a) ?l ?x = Throw _ |- _ =>
           destruct (proj2 (Hc u a) l x); congruence
       end.
Qed.

(** X11. The two amounts are read only after both approvals: when the
    amount of the first slot is rejected by [parseEther] and everything
    before it succeeds, the run ends with that error after it has submitted
    and confirmed every call of the sequence but the mint. *)
Theorem amounts_parsed_after_approvals (e : Error)
    (Hmode : mode w <> wrap)
    (Hchain : forall url account, Cooperative (connect w url account))
    (Hkey : exists account, privateKeyToAccount lib (privateKey w) = Ok account)
    (Hwrap : eqs (wrapAmountEth w) "0" = false ->
             exists v, parseEther lib (wrapAmountEth w) = Ok v)
    (Hprice : mode w = init ->
              gt (target lib w) (ofZ 0) = true /\
              exists sp,
                encodePriceSqrt
                  (poolPrice (fst (pair w)) (tokenAddress w) (target lib w))
                = Ok sp)
    (Hamount : parseEther lib
                 (slotAmount (fst (pair w)) (tokenAddress w)
                    (amountTokenStr w) (amountWethStr w)) = Throw e) :
  fst (run lib w) = Throw e /\
  Confirmed (snd (run lib w)) (removelast (scenario lib w)).
Proof.
  revert Hmode Hchain Hkey Hwrap Hprice Hamount.
  unfold scenario, target, pair.
  run_exec; intros Hmode Hc [acc Hacc] Hwrap Hinit Hamount; try congruence.
  all: try (destruct (Hwrap eq_refl) as [v Hv]).
  all: try (destruct (Hinit eq_refl) as [Hgt [sp Hsp]]; cbn [fst] in Hsp).
  all: try congruence.
  all: try match goal with
       | H : writeContract (connect w ?u ?a) ?l ?x = Throw _ |- _ =>
           destruct (proj1 (Hc u a) l x); congruence
       | H : waitForTransactionReceipt (connect w ?u ?a) ?l ?x = Throw _ |- _ =>
           destruct (proj2 (Hc u a) l x); congruence
       end.
  all: split; [congruence |].
  all: repeat match goal with
              | H : Ok ?x = Ok ?y |- _ => injection H as H; try subst y
              end.
  all: recall; cbn [app removelast]; repeat constructor.
Qed.

End MoreProperties.

Section MintOrder.

Variable lib : Library.
Variable w : World.

(** X12. The mint call comes last: when a run submits it, every other call
    of the sequence has been submitted and confirmed before it, and nothing
    but its own confirmation wait follows. *)
Theorem mint_after_confirmed_sequence
    (a : string) (p : MintParams) (o : Result Hash)
    (Hmint : In (Submitted (mint a p) o) (snd (run lib w))) :
  exists before after,
    snd (run lib w) = (before ++ Submitted (mint a p) o :: after)%list /\
    Confirmed before (removelast (scenario lib w)) /\
    (after = [] \/ exists h r, after = [Awaited h r]).
Proof.
  revert Hmint. unfold scenario, target, pair.
  run_exec; intros H; in_log H.
  all: injection H as <- <- <-.
  all: recall; cbn [app removelast].
  all: first
    [ eexists [_; _; _; _; _; _; _; _], _; split; [reflexivity |]
    | eexists [_; _; _; _; _; _], _; split; [reflexivity |]
    | eexists [_; _; _; _], _; split; [reflexivity |] ].
  all: split; [repeat constructor |].
  all: first [left; reflexivity | right; eexists; eexists; reflexivity].
Qed.

(** X13. The deadline of a mint call lies more than 599 and at most 600
    seconds after the reading of the clock. *)
Theorem deadline_window (a : string) (p : MintParams) (o : Result Hash)
    (Hmint : In (Submitted (mint a p) o) (snd (run lib w))) :
  dateNow w + 599000 < deadline p * 1000 <= dateNow w + 600000.
Proof.
  destruct (mint_submitted _ _ _ _ _ Hmint) as (_ & _ & _ & _ & _ & _ & _ & _ & _ & _ & _ & Hd).
  rewrite Hd.
  pose proof (Z.div_mod (dateNow w) 1000 ltac:(lia)) as Hdm.
  pose proof (Z.mod_pos_bound (dateNow w) 1000 ltac:(lia)) as Hb.
  lia.
Qed.

End MintOrder.

(** ** The further properties at concrete runs *)

Lemma feeTier_fallback_witness :
  trim (feeInput (replies Demo.initHigh)) <> EmptyString /\
  truthy (toNumber Demo.library (trim (feeInput (replies Demo.initHigh)))) = true /\
  feeTier Demo.library Demo.initHigh = ofZ 3000.
Proof.
  assert (H1 : trim (feeInput (replies Demo.initHigh)) <> EmptyString)
    by (vm_compute; discriminate).
  assert (H2 : truthy (toNumber Demo.library
                         (trim (feeInput (replies Demo.initHigh)))) = true)
    by reflexivity.
  split; [exact H1 |]. split; [exact H2 |].
  rewrite (proj2 (proj2 (proj2 (feeTier_fallback Demo.library Demo.initHigh))) H1 H2).
  reflexivity.
Defined.

Lemma privateKey_prefixed_witness :
  startsWith (trim (pkInput (replies Demo.initHigh))) "0x" = true /\
  privateKey Demo.initHigh = Demo.testKey.
Proof.
  assert (H : startsWith (trim (pkInput (replies Demo.initHigh))) "0x" = true)
    by reflexivity.
  split; [exact H |].
  rewrite (proj1 (proj2 (privateKey_prefixed Demo.initHigh)) H). reflexivity.
Defined.

Lemma encodePriceSqrt_range_witness :
  encodePriceSqrt (ofZ 4000) = Ok 5010828967500958503831733272576 /\
  0 <= 5010828967500958503831733272576.
Proof.
  assert (H : encodePriceSqrt (ofZ 4000) = Ok 5010828967500958503831733272576)
    by (vm_compute; reflexivity).
  split; [exact H |].
  exact (proj1 (encodePriceSqrt_range (ofZ 4000)) _ H).
Defined.

Lemma orderTokens_idempotent_witness :
  toLowerCase Demo.tokenHigh <> toLowerCase WETH_ADDRESS /\
  orderTokens (fst (orderTokens Demo.tokenHigh WETH_ADDRESS))
              (snd (orderTokens Demo.tokenHigh WETH_ADDRESS))
  = orderTokens Demo.tokenHigh WETH_ADDRESS.
Proof.
  assert (H : toLowerCase Demo.tokenHigh <> toLowerCase WETH_ADDRESS)
    by (vm_compute; discriminate).
  split; [exact H |].
  exact (orderTokens_idempotent Demo.tokenHigh WETH_ADDRESS H).
Defined.

Lemma orderTokens_ignores_case_witness :
  toLowerCase WETH_ADDRESS = toLowerCase (toLowerCase WETH_ADDRESS) /\
  ((orderTokens WETH_ADDRESS Demo.tokenLow = (WETH_ADDRESS, Demo.tokenLow) /\
    orderTokens (toLowerCase WETH_ADDRESS) Demo.tokenLow
    = (toLowerCase WETH_ADDRESS, Demo.tokenLow)) \/
   (orderTokens WETH_ADDRESS Demo.tokenLow = (Demo.tokenLow, WETH_ADDRESS) /\
    orderTokens (toLowerCase WETH_ADDRESS) Demo.tokenLow
    = (Demo.tokenLow, toLowerCase WETH_ADDRESS))).
Proof.
  assert (H : toLowerCase WETH_ADDRESS = toLowerCase (toLowerCase WETH_ADDRESS))
    by reflexivity.
  split; [exact H |].
  exact (orderTokens_ignores_case WETH_ADDRESS (toLowerCase WETH_ADDRESS)
           Demo.tokenLow H).
Defined.

Lemma approvals_only_to_position_manager_witness :
  In (Submitted (approve Demo.tokenLow NPM_ADDRESS maxUint256) (Ok "0xb"))
     (snd (run Demo.library Demo.initLow)) /\
  NPM_ADDRESS = NPM_ADDRESS /\ maxUint256 = 2 ^ 256 - 1 /\
  (Demo.tokenLow = tokenAddress Demo.initLow \/ Demo.tokenLow = WETH_ADDRESS) /\
  mode Demo.initLow <> wrap.
Proof.
  assert (H : In (Submitted (approve Demo.tokenLow NPM_ADDRESS maxUint256)
                            (Ok "0xb"))
                 (snd (run Demo.library Demo.initLow))) by find_in_log.
  split; [exact H |].
  exact (approvals_only_to_position_manager Demo.library Demo.initLow _ _ _ _ H).
Defined.

Lemma mint_targets_initialized_pool_witness :
  In (Submitted
        (createAndInitializePoolIfNecessary NPM_ADDRESS Demo.tokenLow WETH_ADDRESS
           (ofZ 3000) 1252707241875239577579421696) (Ok "0xa"))
     (snd (run Demo.library Demo.initLow)) /\
  In (Submitted (mint NPM_ADDRESS Demo.paramsLow) (Ok "0xd"))
     (snd (run Demo.library Demo.initLow)) /\
  token0 Demo.paramsLow = Demo.tokenLow /\
  token1 Demo.paramsLow = WETH_ADDRESS /\
  fee Demo.paramsLow = ofZ 3000.
Proof.
  assert (Hi : In (Submitted
                     (createAndInitializePoolIfNecessary NPM_ADDRESS Demo.tokenLow
                        WETH_ADDRESS (ofZ 3000) 1252707241875239577579421696)
                     (Ok "0xa"))
                  (snd (run Demo.library Demo.initLow))) by find_in_log.
  assert (Hm : In (Submitted (mint NPM_ADDRESS Demo.paramsLow) (Ok "0xd"))
                  (snd (run Demo.library Demo.initLow))) by find_in_log.
  split; [exact Hi |]. split; [exact Hm |].
  exact (proj2 (mint_targets_initialized_pool Demo.library Demo.initLow
                  _ _ _ _ _ _ _ _ _ Hi Hm)).
Defined.

Lemma transactions_bounded_witness :
  mode Demo.sameToken = add /\
  (List.length (callsOf (snd (run Demo.library Demo.sameToken))) <= 4)%nat.
Proof.
  assert (H : mode Demo.sameToken = add) by reflexivity.
  split; [exact H |].
  exact (proj1 (proj2 (transactions_bounded Demo.library Demo.sameToken)) H).
Defined.

Lemma wrap_only_run_witness :
  mode Demo.wrapOnly = wrap /\
  fst (run Demo.library Demo.wrapOnly) = Ok tt /\
  exists v,
    parseEther Demo.library (orElse (wrapOnlyReply (replies Demo.wrapOnly)) "0.1")
    = Ok v /\
    Confirmed (snd (run Demo.library Demo.wrapOnly)) [deposit WETH_ADDRESS v].
Proof.
  assert (Hm : mode Demo.wrapOnly = wrap) by reflexivity.
  pose proof (wrap_only_run Demo.library Demo.wrapOnly Hm) as (_ & Hdone & Hlive).
  assert (Hok : fst (run Demo.library Demo.wrapOnly) = Ok tt).
  { apply Hlive.
    - intros; apply goodClient_cooperative.
    - exists Demo.testAccount; reflexivity.
    - exists (2 * 10 ^ 17); reflexivity. }
  split; [exact Hm |]. split; [exact Hok |]. exact (Hdone Hok).
Defined.

Lemma amounts_parsed_after_approvals_witness :
  mode Demo.badAmount <> wrap /\
  parseEther Demo.library
    (slotAmount (fst (pair Demo.badAmount)) (tokenAddress Demo.badAmount)
       (amountTokenStr Demo.badAmount) (amountWethStr Demo.badAmount))
  = Throw (Raised "InvalidDecimalNumberError") /\
  fst (run Demo.library Demo.badAmount) = Throw (Raised "InvalidDecimalNumberError") /\
  Confirmed (snd (run Demo.library Demo.badAmount))
            (removelast (scenario Demo.library Demo.badAmount)).
Proof.
  assert (Hm : mode Demo.badAmount <> wrap) by (vm_compute; discriminate).
  assert (Ha : parseEther Demo.library
                 (slotAmount (fst (pair Demo.badAmount)) (tokenAddress Demo.badAmount)
                    (amountTokenStr Demo.badAmount) (amountWethStr Demo.badAmount))
               = Throw (Raised "InvalidDecimalNumberError")) by reflexivity.
  split; [exact Hm |]. split; [exact Ha |].
  apply (amounts_parsed_after_approvals Demo.library Demo.badAmount _ Hm).
  - intros; apply goodClient_cooperative.
  - exists Demo.testAccount; reflexivity.
  - intros _; exists (2 * 10 ^ 17); reflexivity.
  - intros H; vm_compute in H; discriminate.
  - exact Ha.
Defined.

Lemma mint_after_confirmed_sequence_witness :
  In (Submitted (mint NPM_ADDRESS Demo.paramsLow) (Ok "0xd"))
     (snd (run Demo.library Demo.initLow)) /\
  exists before after,
    snd (run Demo.library Demo.initLow)
    = (before ++ Submitted (mint NPM_ADDRESS Demo.paramsLow) (Ok "0xd") :: after)%list /\
    Confirmed before (removelast (scenario Demo.library Demo.initLow)) /\
    (after = [] \/ exists h r, after = [Awaited h r]).
Proof.
  assert (H : In (Submitted (mint NPM_ADDRESS Demo.paramsLow) (Ok "0xd"))
                 (snd (run Demo.library Demo.initLow))) by find_in_log.
  split; [exact H |].
  exact (mint_after_confirmed_sequence Demo.library Demo.initLow _ _ _ H).
Defined.

Lemma deadline_window_witness :
  In (Submitted (mint NPM_ADDRESS Demo.paramsLow) (Ok "0xd"))
     (snd (run Demo.library Demo.initLow)) /\
  dateNow Demo.initLow + 599000 < deadline Demo.paramsLow * 1000
    <= dateNow Demo.initLow + 600000.
Proof.
  assert (H : In (Submitted (mint NPM_ADDRESS Demo.paramsLow) (Ok "0xd"))
                 (snd (run Demo.library Demo.initLow))) by find_in_log.
  split; [exact H |].
  exact (deadline_window Demo.library Demo.initLow _ _ _ H).
Defined.
